(** * Ollama chat client: adapter and sanitizer

    A shallow embedding of the logic of [ollamaApi.py] (the two HTTP helpers
    [get_llm_models] and [chat_with_llm]) and of the session logic of
    [main.py] ([send_message], [ollama_callback], [label_copy]), with the
    properties the specification states about them.

    Conventions.
    - A Python [str] is a [string]; a character is read as the code point
      of the same number, so texts range over U+0000..U+00FF.
    - The values [Response.json()] yields are the type [json].
    - A Python exception is a value [exn] (class name and [str(e)]); code
      that may raise returns [res A].
    - The network is not part of the program: what [requests.get] and
      [requests.post] do is an argument of the functions that call them.
    - [print] calls write to the console only and are left out. *)

From Stdlib Require Import ZArith NArith Ascii String Bool Lia.
From stdpp Require Import base list strings pretty.

(** ** Text: the [str] methods the program calls *)

Module Text.

(** [s[n:]] for [0 <= n]. *)
Fixpoint drop (n : nat) (s : string) : string :=
  match n, s with
  | O, _ => s
  | S _, "" => ""
  | S n', String _ s' => drop n' s'
  end.

(** [s.startswith(p)], the characters compared with [eqc]. *)
Fixpoint startswith (eqc : ascii → ascii → bool) (p s : string) : bool :=
  match p, s with
  | "", _ => true
  | String _ _, "" => false
  | String a p', String b s' => eqc a b && startswith eqc p' s'
  end.

(** The same comparison on whole strings. *)
Fixpoint eq_by (eqc : ascii → ascii → bool) (p s : string) : bool :=
  match p, s with
  | "", "" => true
  | String a p', String b s' => eqc a b && eq_by eqc p' s'
  | _, _ => false
  end.

(** [s.find(sub)]: the lowest index at which [sub] occurs, [-1] if none. *)
Fixpoint find_from (sub s : string) (i : Z) : Z :=
  if startswith Ascii.eqb sub s then i
  else match s with
       | "" => (-1)%Z
       | String _ s' => find_from sub s' (i + 1)%Z
       end.

Definition find (s sub : string) : Z := find_from sub s 0%Z.

(** [sub in s] as a relation: [s] is [pre + sub + post]. *)
Definition Substring (sub s : string) : Prop :=
  ∃ pre post, s = pre +:+ sub +:+ post.

(** [str.isspace] on one character, for the code points below 256. *)
Definition isspace (c : ascii) : bool :=
  existsb (N.eqb (N_of_ascii c))
    [9; 10; 11; 12; 13; 28; 29; 30; 31; 32; 133; 160]%N.

Fixpoint lstrip (s : string) : string :=
  match s with
  | "" => ""
  | String c s' => if isspace c then lstrip s' else s
  end.

Fixpoint rstrip (s : string) : string :=
  match s with
  | "" => ""
  | String c s' =>
      match rstrip s' with
      | "" => if isspace c then "" else String c ""
      | r => String c r
      end
  end.

(** [s.strip()] *)
Definition strip (s : string) : string := rstrip (lstrip s).

(** [ch.lower()] below U+0100: A-Z and the Latin-1 capitals. *)
Definition lower (c : ascii) : ascii :=
  let n := N_of_ascii c in
  if ((65 <=? n) && (n <=? 90)
      || (192 <=? n) && (n <=? 222) && negb (n =? 215))%N
  then ascii_of_N (n + 32) else c.

(** Every character of [s] satisfies [ok]. *)
Fixpoint all (ok : ascii → bool) (s : string) : bool :=
  match s with
  | EmptyString => true
  | String c s' => ok c && all ok s'
  end.

End Text.


(** ** Regular expressions: the part of [re] the program uses *)

Module Re.

(** [re.IGNORECASE] and [re.DOTALL]. *)
Record flags := Flags { IGNORECASE : bool; DOTALL : bool }.

(** The pattern syntax of the two patterns in [main.py]. *)
Inductive regex :=
| Str (w : string)       (* a run of literal characters *)
| Cat (r1 r2 : regex)    (* r1 followed by r2 *)
| Alt (r1 r2 : regex)    (* r1|r2, r1 tried first *)
| Opt (r : regex)        (* r?, greedy: with r first, then without *)
| LazyDots.              (* .*?, the shortest run tried first *)

(** A pattern character against a text character. Under IGNORECASE the
    engine compares lower-cased characters. *)
Definition chr_eq (fl : flags) (a b : ascii) : bool :=
  if IGNORECASE fl then Ascii.eqb (Text.lower a) (Text.lower b)
  else Ascii.eqb a b.

(** What [.] matches: any character, the newline only under DOTALL. *)
Definition dot (fl : flags) (c : ascii) : bool :=
  DOTALL fl || negb (Ascii.eqb c "010").

(** [.*?] before the continuation [k]: the continuation is tried at once,
    and again after each further character [.] accepts. *)
Fixpoint lazy_dots (ok : ascii → bool) (k : string → option string)
    (s : string) : option string :=
  match k s with
  | Some rest => Some rest
  | None =>
      match s with
      | String c s' => if ok c then lazy_dots ok k s' else None
      | EmptyString => None
      end
  end.

(** The backtracking matcher: [run fl r k s] matches [r] at the start of
    [s] and hands what is left of the text to [k]; the first success in the
    engine's order of trial is the result, [None] when every trial fails. *)
Fixpoint run (fl : flags) (r : regex) (k : string → option string)
    (s : string) : option string :=
  match r with
  | Str w =>
      if Text.startswith (chr_eq fl) w s
      then k (Text.drop (String.length w) s) else None
  | Cat r1 r2 => run fl r1 (run fl r2 k) s
  | Alt r1 r2 =>
      match run fl r1 k s with
      | Some rest => Some rest
      | None => run fl r2 k s
      end
  | Opt r1 =>
      match run fl r1 k s with
      | Some rest => Some rest
      | None => k s
      end
  | LazyDots => lazy_dots (dot fl) k s
  end.

(** A match that begins at the first character of [s]: the text after it. *)
Definition match_at (fl : flags) (r : regex) (s : string) : option string :=
  run fl r Some s.

Definition match_len (fl : flags) (r : regex) (s : string) : option nat :=
  rest ← match_at fl r s; Some (String.length s - String.length rest).

(** The scan of [re.sub(r, '', s)] for a pattern that matches no empty
    text: [skip] is the number of characters of the current match still to
    leave out; outside a match the pattern is tried at each position. *)
Fixpoint scan (fl : flags) (r : regex) (skip : nat) (s : string) : string :=
  match s with
  | EmptyString => EmptyString
  | String c s' =>
      match skip with
      | S n => scan fl r n s'
      | O =>
          match match_len fl r s with
          | Some (S n) => scan fl r n s'
          | _ => String c (scan fl r 0 s')
          end
      end
  end.

(** [re.sub(r, '', s, flags=fl)] *)
Definition sub_del (fl : flags) (r : regex) (s : string) : string :=
  scan fl r 0 s.

(** [w|w1|...|wn] *)
Fixpoint alt_strs (w : string) (ws : list string) : regex :=
  match ws with
  | [] => Str w
  | w' :: ws' => Alt (Str w) (alt_strs w' ws')
  end.

End Re.


(** ** Python values and exceptions *)

(** An exception object: its class and [str(e)]. *)
Record exn := Exn { exn_class : string; exn_text : string }.

(** The outcome of code that may raise. *)
Inductive res (A : Type) : Type :=
| Ok (a : A)
| Raise (e : exn).
Arguments Ok {A} a.
Arguments Raise {A} e.

#[global] Instance res_ret : MRet res := λ A a, Ok a.
#[global] Instance res_bind : MBind res := λ A B f m,
  match m with
  | Ok a => f a
  | Raise e => Raise e
  end.

(** The objects [json] decoding produces: [None], [bool], [int], [float]
    (kept as its literal), [str], [list] and [dict]. A [dict] is the list
    of its items, each key once. *)
#[warnings="-register-all"]
Inductive json :=
| JNull
| JBool (b : bool)
| JInt (n : Z)
| JFloat (lit : string)
| JStr (s : string)
| JArr (xs : list json)
| JObj (fields : list (string * json)).

Module Py.

Definition type_name (v : json) : string :=
  match v with
  | JNull => "NoneType"
  | JBool _ => "bool"
  | JInt _ => "int"
  | JFloat _ => "float"
  | JStr _ => "str"
  | JArr _ => "list"
  | JObj _ => "dict"
  end.

Definition TypeError (text : string) : exn := Exn "TypeError" text.
Definition AttributeError (v : json) (attr : string) : exn :=
  Exn "AttributeError"
    ("'" +:+ type_name v +:+ "' object has no attribute '" +:+ attr +:+ "'").
(** [str(KeyError(key))] is the [repr] of the key; the keys of this
    program are plain words. *)
Definition KeyError (key : string) : exn :=
  Exn "KeyError" ("'" +:+ key +:+ "'").

(** The value stored under [key] in the items of a dict. *)
Fixpoint lookup {A} (key : string) (items : list (string * A)) : option A :=
  match items with
  | [] => None
  | (k, v) :: items' => if String.eqb k key then Some v else lookup key items'
  end.

(** [v[key]] for a [str] key. *)
Definition getitem (v : json) (key : string) : res json :=
  match v with
  | JObj fields =>
      match lookup key fields with
      | Some x => Ok x
      | None => Raise (KeyError key)
      end
  | JArr _ => Raise (TypeError "list indices must be integers or slices, not str")
  | JStr _ => Raise (TypeError "string indices must be integers, not 'str'")
  | _ => Raise (TypeError ("'" +:+ type_name v +:+ "' object is not subscriptable"))
  end.

(** [v.get(key, default)] *)
Definition get_default (v : json) (key : string) (dflt : json) : res json :=
  match v with
  | JObj fields => Ok (default dflt (lookup key fields))
  | _ => Raise (AttributeError v "get")
  end.

(** The items a [for] loop over [v] visits. *)
Definition iter (v : json) : res (list json) :=
  match v with
  | JArr xs => Ok xs
  | JStr s => Ok ((λ c, JStr (String c "")) <$> list_ascii_of_string s)
  | JObj fields => Ok ((λ kv, JStr kv.1) <$> fields)
  | _ => Raise (TypeError ("'" +:+ type_name v +:+ "' object is not iterable"))
  end.

(** [v == lit] for a [str] literal. *)
Definition eq_str (v : json) (lit : string) : bool :=
  match v with
  | JStr s => String.eqb s lit
  | _ => false
  end.

(** [key in v] for a [str] key: a key of a dict, an item of a list, a
    substring of a str. *)
Definition contains (key : string) (v : json) : res bool :=
  match v with
  | JObj fields => Ok (bool_decide (is_Some (lookup key fields)))
  | JArr xs => Ok (existsb (λ x, eq_str x key) xs)
  | JStr s => Ok (negb (Text.find s key =? -1)%Z)
  | _ => Raise (TypeError
                  ("argument of type '" +:+ type_name v +:+ "' is not iterable"))
  end.

(** Looking up a [str] method such as [find] on [v]: only a [str] has it. *)
Definition str_method (v : json) (method : string) : res string :=
  match v with
  | JStr s => Ok s
  | _ => Raise (AttributeError v method)
  end.

(** [l[i:]] *)
Definition slice_from {A} (i : Z) (l : list A) : list A :=
  let n := Z.of_nat (length l) in
  let start := if (i <? 0)%Z then Z.max 0 (n + i) else Z.min i n in
  drop (Z.to_nat start) l.

End Py.



(** ** The HTTP client library, as far as the program uses it *)

Module requests.

(** A [Response]: what [raise_for_status] and [json()] read of it.
    [json] is the outcome of decoding the body. *)
Record Response := {
  url : string;
  status_code : Z;
  reason : string;
  json : res json;
}.

(** [Response.raise_for_status()]: an [HTTPError] for a 4xx or 5xx
    status, nothing otherwise. *)
Definition raise_for_status (r : Response) : res unit :=
  let c := status_code r in
  if (400 <=? c)%Z && (c <? 500)%Z then
    Raise (Exn "HTTPError"
             (pretty c +:+ " Client Error: " +:+ reason r
              +:+ " for url: " +:+ url r))
  else if (500 <=? c)%Z && (c <? 600)%Z then
    Raise (Exn "HTTPError"
             (pretty c +:+ " Server Error: " +:+ reason r
              +:+ " for url: " +:+ url r))
  else Ok ().

End requests.


(** ** ollamaApi.py *)

Module ollamaApi.

(** The body of the [for] loop of [get_llm_models] on one entry: the name
    to append, if any. *)
Definition visit (model : json) : res (option string) :=
  model_name ← Py.getitem model "name";
  name ← Py.str_method model_name "find";
  if (Text.find name "embed" =? -1)%Z then Ok (Some name) else Ok None.

(** The [for] loop: [got] is [got_llm_models] as the loop appends to it.
    The result is the list when the loop ends, and how it ended: at the
    last entry, or earlier with the exception an entry raised. *)
Fixpoint collect (got : list string) (models : list json)
    : list string * res unit :=
  match models with
  | [] => (got, Ok ())
  | model :: models' =>
      match visit model with
      | Raise e => (got, Raise e)
      | Ok (Some name) => collect (got ++ [name]) models'
      | Ok None => collect got models'
      end
  end.

(** [get_llm_models(url)]; [get] is [requests.get]. *)
Definition get_llm_models (get : string → res requests.Response)
    (url : string) : list string :=
  let llm_models_url := url +:+ "/api/tags" in
  let got_llm_models := [] in
  match
    response ← get llm_models_url;
    _ ← requests.raise_for_status response;
    models_data ← requests.json response;
    models ← Py.get_default models_data "models" (JArr []);
    Py.iter models
  with
  | Raise e => got_llm_models
  | Ok models =>
      match collect got_llm_models models with
      | (got, Ok _) => got
      | (got, Raise e) => got
      end
  end.

Definition chat_url (url : string) : string := url +:+ "/api/chat".

Definition msg_body (model : string) (messages : list json) : json :=
  JObj [("model", JStr model);
        ("messages", JArr messages);
        ("stream", JBool false)].

(** The value [return_resp] starts with; every path below replaces it. *)
Definition init_resp : json :=
  JObj [("role", JStr "init");
        ("content", JStr "**Initials** in LLM response!")].

(** How [chat_with_llm] hands over its result: with a callback the
    callback is scheduled on the main thread with the result (and the
    function returns [None]); without one the result is returned. *)
Inductive delivery (C : Type) :=
| Scheduled (callback : C) (return_resp : json)
| Returned (return_resp : json).
Arguments Scheduled {C} callback return_resp.
Arguments Returned {C} return_resp.

(** The [try] block of [chat_with_llm] and its [except] clause. *)
Definition chat_response (post : string → json → res requests.Response)
    (url model : string) (messages : list json) : json :=
  match
    response ← post (chat_url url) (msg_body model messages);
    respDict ← requests.json response;
    has_message ← Py.contains "message" respDict;
    if has_message : bool then Py.getitem respDict "message"
    else Ok (JObj [("role", JStr "error");
                   ("content", JStr "**Error** in LLM response!")])
  with
  | Ok return_resp => return_resp
  | Raise e =>
      JObj [("role", JStr "error");
            ("content", JStr ("**Error** with Ollama: " +:+ exn_text e))]
  end.

(** [chat_with_llm(url, model, messages, callback)]; [post] is
    [requests.post] with its [json=] argument. *)
Definition chat_with_llm {C} (post : string → json → res requests.Response)
    (url model : string) (messages : list json) (callback : option C)
    : delivery C :=
  let return_resp := chat_response post url model messages in
  match callback with
  | Some cb => Scheduled cb return_resp
  | None => Returned return_resp
  end.

End ollamaApi.



(** ** main.py: the chat session *)

Module main.

(** [r'<THINK>.*?</THINK>'] with [re.DOTALL | re.IGNORECASE] *)
Definition think_re : Re.regex :=
  Re.Cat (Re.Str "<THINK>") (Re.Cat Re.LazyDots (Re.Str "</THINK>")).
Definition think_flags : Re.flags :=
  {| Re.IGNORECASE := true; Re.DOTALL := true |}.

(** The names in the pattern of [label_copy], in its order. *)
Definition tag_names : list string :=
  ["color"; "b"; "i"; "u"; "s"; "sub"; "sup"; "font"; "font_context";
   "font_family"; "font_features"; "size"; "ref"; "anchor"; "text_language"].

(** [r'\[/?(?:color|b|...|text_language).*?\]'], no flags *)
Definition markup_re : Re.regex :=
  Re.Cat (Re.Str "[")
    (Re.Cat (Re.Opt (Re.Str "/"))
       (Re.Cat (Re.alt_strs "color" (tail tag_names))
          (Re.Cat Re.LazyDots (Re.Str "]")))).
Definition markup_flags : Re.flags :=
  {| Re.IGNORECASE := false; Re.DOTALL := false |}.

(** The sanitizer of [ollama_callback]:
    [re.sub(r'<THINK>.*?</THINK>', '', api_msg, flags=...)]. *)
Definition strip_think (api_msg : string) : string :=
  Re.sub_del think_flags think_re api_msg.

(** [label_copy(label_text)]: the plain text handed to [Clipboard.copy]. *)
Definition label_copy (label_text : string) : string :=
  Re.sub_del markup_flags markup_re label_text.

(** The widgets added to the chat history. *)
Inductive widget :=
| UsrLabel (text : string)      (* add_usr_message *)
| TempSpinWait                  (* the spinner, self.tmp_spin *)
| BotDocument (text : string)   (* add_bot_message, the Markdown shown *)
| InitLabel (text : string).    (* the line update_chatbot_welcome adds *)

#[global] Instance widget_eq_dec : EqDecision widget.
Proof. solve_decision. Defined.

(** A worker thread: the arguments [chat_with_llm] was started with. Its
    callback is always [self.ollama_callback]. *)
Record Thread := {
  th_url : string;
  th_model : string;
  th_messages : list json;
}.

(** The state of the application: the attributes of [MyApp] the session
    logic reads and writes, the worker threads whose call is still to
    return, and the callbacks [Clock.schedule_once] holds for the main
    thread, each with its argument. *)
Record MyApp := {
  ollama_uri : string;
  selected_llm : string;
  messages : list json;
  is_llm_running : bool;
  chat_history : list widget;
  toasts : list (string * bool);
  threads : list Thread;
  clock : list json;
}.

(** The state after [build] and [on_start]. *)
Definition init : MyApp := {|
  ollama_uri := "http://localhost:11434";
  selected_llm := "";
  messages := [];
  is_llm_running := false;
  chat_history := [];
  toasts := [];
  threads := [];
  clock := [];
|}.

Definition set_ollama_uri (v : string) (a : MyApp) : MyApp :=
  {| ollama_uri := v; selected_llm := selected_llm a;
     messages := messages a; is_llm_running := is_llm_running a;
     chat_history := chat_history a; toasts := toasts a;
     threads := threads a; clock := clock a |}.

Definition set_selected_llm (v : string) (a : MyApp) : MyApp :=
  {| ollama_uri := ollama_uri a; selected_llm := v;
     messages := messages a; is_llm_running := is_llm_running a;
     chat_history := chat_history a; toasts := toasts a;
     threads := threads a; clock := clock a |}.

Definition set_messages (v : list json) (a : MyApp) : MyApp :=
  {| ollama_uri := ollama_uri a; selected_llm := selected_llm a;
     messages := v; is_llm_running := is_llm_running a;
     chat_history := chat_history a; toasts := toasts a;
     threads := threads a; clock := clock a |}.

Definition set_is_llm_running (v : bool) (a : MyApp) : MyApp :=
  {| ollama_uri := ollama_uri a; selected_llm := selected_llm a;
     messages := messages a; is_llm_running := v;
     chat_history := chat_history a; toasts := toasts a;
     threads := threads a; clock := clock a |}.

Definition set_chat_history (v : list widget) (a : MyApp) : MyApp :=
  {| ollama_uri := ollama_uri a; selected_llm := selected_llm a;
     messages := messages a; is_llm_running := is_llm_running a;
     chat_history := v; toasts := toasts a;
     threads := threads a; clock := clock a |}.

Definition set_toasts (v : list (string * bool)) (a : MyApp) : MyApp :=
  {| ollama_uri := ollama_uri a; selected_llm := selected_llm a;
     messages := messages a; is_llm_running := is_llm_running a;
     chat_history := chat_history a; toasts := v;
     threads := threads a; clock := clock a |}.

Definition set_threads (v : list Thread) (a : MyApp) : MyApp :=
  {| ollama_uri := ollama_uri a; selected_llm := selected_llm a;
     messages := messages a; is_llm_running := is_llm_running a;
     chat_history := chat_history a; toasts := toasts a;
     threads := v; clock := clock a |}.

Definition set_clock (v : list json) (a : MyApp) : MyApp :=
  {| ollama_uri := ollama_uri a; selected_llm := selected_llm a;
     messages := messages a; is_llm_running := is_llm_running a;
     chat_history := chat_history a; toasts := toasts a;
     threads := threads a; clock := v |}.

(** [self.show_toast_msg(message, is_error)] *)
Definition show_toast_msg (message : string) (is_error : bool) (a : MyApp)
    : MyApp :=
  set_toasts (toasts a ++ [(message, is_error)]) a.

(** [self.chat_history_id.add_widget(w)] *)
Definition add_widget (w : widget) (a : MyApp) : MyApp :=
  set_chat_history (chat_history a ++ [w]) a.

(** [self.chat_history_id.remove_widget(self.tmp_spin)]: the spinner
    added last leaves the history. *)
Fixpoint remove_last (w : widget) (ws : list widget) : list widget :=
  match ws with
  | [] => []
  | x :: ws' =>
      if bool_decide (x = w) && bool_decide (w ∉ ws') then ws'
      else x :: remove_last w ws'
  end.

Definition remove_widget (w : widget) (a : MyApp) : MyApp :=
  set_chat_history (remove_last w (chat_history a)) a.

(** [self.messages.append(m)] *)
Definition messages_append (m : json) (a : MyApp) : MyApp :=
  set_messages (messages a ++ [m]) a.

(** [Thread(target=chat_with_llm, args=(...), daemon=True).start()] *)
Definition start_thread (t : Thread) (a : MyApp) : MyApp :=
  set_threads (threads a ++ [t]) a.

(** [send_message(button_instance, chat_input_widget)]: [chat_input] is
    the text of the input widget; the result is the new state and the text
    the widget holds afterwards. *)
Definition send_message (chat_input : string) (a : MyApp) : MyApp * string :=
  if is_llm_running a then
    (show_toast_msg "Please wait for the current response" true a, chat_input)
  else
    let user_message := Text.strip chat_input in
    if negb (String.eqb user_message "") then
      let user_message_add :=
        "[b][color=#2196F3]You:[/color][/b] " +:+ user_message in
      let a := messages_append
                 (JObj [("role", JStr "user"); ("content", JStr user_message)])
                 a in
      let a := add_widget (UsrLabel user_message_add) a in
      let a := add_widget TempSpinWait a in
      let a := start_thread
                 {| th_url := ollama_uri a;
                    th_model := selected_llm a;
                    th_messages := Py.slice_from (-3) (messages a) |} a in
      let a := set_is_llm_running true a in
      (a, "")
    else
      (show_toast_msg "Please type a message!" true a, chat_input).

(** [re.sub] on the value of [llm_resp["content"]]: it must be a [str]. *)
Definition re_sub_think (api_msg : json) : res string :=
  match api_msg with
  | JStr s => Ok (strip_think s)
  | _ => Raise (Py.TypeError
                  ("expected string or bytes-like object, got '"
                   +:+ Py.type_name api_msg +:+ "'"))
  end.

(** [ollama_callback(llm_resp)]. An exception raised here leaves the
    Clock callback and stops the application. *)
Definition ollama_callback (llm_resp : json) (a : MyApp) : res MyApp :=
  role ← Py.getitem llm_resp "role";
  let a := if Py.eq_str role "assistant" then messages_append llm_resp a
           else a in
  api_msg ← Py.getitem llm_resp "content";
  api_msg ← re_sub_think api_msg;
  let api_msg := "**Bot:** " +:+ String "010" api_msg in
  let a := remove_widget TempSpinWait a in
  let a := set_is_llm_running false a in
  Ok (add_widget (BotDocument api_msg) a).

(** [go_to_chatbot(instance, ollama_uri_widget)]: [uri_text] is the text
    of the widget; the result is the new state, the screen the root
    shows afterwards ([self.root.current]) and the text the widget holds
    afterwards. *)
Definition go_to_chatbot (uri_text : string) (a : MyApp)
    : MyApp * string * string :=
  let ollama_uri := Text.strip uri_text in
  if negb (String.eqb ollama_uri "") then
    let a := set_ollama_uri ollama_uri a in
    (a, "chatbot_screen", "")
  else
    let a := show_toast_msg "Using default Ollama URL" false a in
    (a, "chatbot_screen", uri_text).

(** [go_back_to_ollama_input(instance)]: the screen the root shows
    afterwards; the state stays as it is. *)
Definition go_back_to_ollama_input (a : MyApp) : MyApp * string :=
  (a, "ollama_input_screen").

(** [llm_menu_callback(text_item, screen)] *)
Definition llm_menu_callback (text_item : string) (a : MyApp) : MyApp :=
  set_selected_llm text_item a.

(** [update_chatbot_welcome(screen_instance)], the menu widgets apart *)
Definition update_chatbot_welcome (get : string → res requests.Response)
    (a : MyApp) : MyApp :=
  if negb (String.eqb (ollama_uri a) "") then
    let ollama_models := ollamaApi.get_llm_models get (ollama_uri a) in
    let a := match ollama_models with
             | model_name :: _ => set_selected_llm model_name a
             | [] => set_selected_llm "None" a
             end in
    add_widget
      (InitLabel ("[color=#0000FF]Init:[/color] Your Ollama URI: "
                  +:+ ollama_uri a)) a
  else a.

(** What can happen next in a session. *)
Inductive event :=
| SendMessage (chat_input : string)
    (* the send button is released, the input widget holding this text *)
| ThreadRuns (i : nat) (post : string → json → res requests.Response)
    (* worker thread [i] runs [chat_with_llm] to its end, the network
       behaving as [post] *)
| ClockTick
    (* the main loop runs the callback scheduled first *)
| GoToChatbot (uri_text : string)
| LlmMenuCallback (text_item : string)
| UpdateChatbotWelcome (get : string → res requests.Response).

(** One event on a state; [None] when the event cannot happen there (no
    such thread, nothing scheduled) or the handler raises. *)
Definition handle (ev : event) (a : MyApp) : option MyApp :=
  match ev with
  | SendMessage chat_input => Some (send_message chat_input a).1
  | ThreadRuns i post =>
      t ← threads a !! i;
      match ollamaApi.chat_with_llm post (th_url t) (th_model t)
              (th_messages t) (Some ()) with
      | ollamaApi.Scheduled _ return_resp =>
          Some (set_clock (clock a ++ [return_resp])
                  (set_threads (delete i (threads a)) a))
      | ollamaApi.Returned _ => None
      end
  | ClockTick =>
      match clock a with
      | [] => None
      | llm_resp :: rest =>
          match ollama_callback llm_resp (set_clock rest a) with
          | Ok a' => Some a'
          | Raise _ => None
          end
      end
  | GoToChatbot uri_text => Some (go_to_chatbot uri_text a).1.1
  | LlmMenuCallback text_item => Some (llm_menu_callback text_item a)
  | UpdateChatbotWelcome get => Some (update_chatbot_welcome get a)
  end.

(** The states a session reaches from [init]. *)
Inductive reachable : MyApp → Prop :=
| reachable_init : reachable init
| reachable_step a ev a' :
    reachable a → handle ev a = Some a' → reachable a'.

(** A sequence of events from a state. *)
Fixpoint run (evs : list event) (a : MyApp) : option MyApp :=
  match evs with
  | [] => Some a
  | ev :: evs' => a' ← handle ev a; run evs' a'
  end.

(** The chat requests under way: calls still running in a worker thread
    and results waiting for the main thread. *)
Definition outstanding (a : MyApp) : nat :=
  length (threads a) + length (clock a).

End main.




(** ** main.py: the top menu, the update dialog and the browser *)

Module menu.

Definition __version__ : string := "0.2.0".

(** The buttons of the update dialog, named by their handlers. *)
Inductive button :=
| Cancel      (* on_release = self.txt_dialog_closer *)
| Releases.   (* on_release = self.update_checker *)

#[global] Instance button_eq_dec : EqDecision button.
Proof. solve_decision. Defined.

(** An [MDDialog]: what it shows and whether it is open. *)
Record MDDialog := {
  title : string;
  text : string;
  buttons : list button;
  is_open : bool;
}.

(** The attributes of [MyApp] the menu handlers read and write, and the
    pages [webbrowser.open] was called with. [txt_dialog] is unset until
    the first dialog is shown. *)
Record Shell := {
  top_menu_items : list (string * list (string * string));
  top_menu_open : bool;
  txt_dialog : option MDDialog;
  browser : list string;
}.

(** The state after [build] and [on_start]. *)
Definition init : Shell := {|
  top_menu_items :=
    [("Demo",
      [("icon", "youtube"); ("action", "web");
       ("url", "https://youtube.com/watch?v=a-azvqDL78k")]);
     ("Documentation",
      [("icon", "file-document-check"); ("action", "web");
       ("url", "https://blog.daslearning.in/llm_ai/ollama/kivy-chat.html")]);
     ("Contact Us",
      [("icon", "card-account-phone"); ("action", "web");
       ("url", "https://daslearning.in/contact/")]);
     ("Check for update",
      [("icon", "github"); ("action", "update"); ("url", "")])];
  top_menu_open := false;
  txt_dialog := None;
  browser := [];
|}.

Definition set_top_menu_open (v : bool) (sh : Shell) : Shell :=
  {| top_menu_items := top_menu_items sh; top_menu_open := v;
     txt_dialog := txt_dialog sh; browser := browser sh |}.

Definition set_txt_dialog (v : option MDDialog) (sh : Shell) : Shell :=
  {| top_menu_items := top_menu_items sh;
     top_menu_open := top_menu_open sh;
     txt_dialog := v; browser := browser sh |}.

(** [menu_bar_callback(button)] *)
Definition menu_bar_callback (sh : Shell) : Shell :=
  set_top_menu_open true sh.

(** [open_link(url)] *)
Definition open_link (url : string) (sh : Shell) : Shell :=
  {| top_menu_items := top_menu_items sh;
     top_menu_open := top_menu_open sh;
     txt_dialog := txt_dialog sh; browser := browser sh ++ [url] |}.

(** [show_text_dialog(title, text, buttons)] *)
Definition show_text_dialog (title text : string) (buttons : list button)
    (sh : Shell) : Shell :=
  set_txt_dialog
    (Some {| title := title; text := text; buttons := buttons;
             is_open := true |}) sh.

(** [self.txt_dialog.dismiss()]; the attribute must exist. *)
Definition dismiss_txt_dialog (sh : Shell) : res Shell :=
  match txt_dialog sh with
  | Some d =>
      Ok (set_txt_dialog
            (Some {| title := title d; text := text d;
                     buttons := buttons d; is_open := false |}) sh)
  | None =>
      Raise (Exn "AttributeError"
               "'MyApp' object has no attribute 'txt_dialog'")
  end.

(** [txt_dialog_closer(instance)] *)
Definition txt_dialog_closer (sh : Shell) : res Shell :=
  dismiss_txt_dialog sh.

(** [update_checker(instance)] *)
Definition update_checker (sh : Shell) : res Shell :=
  sh ← dismiss_txt_dialog sh;
  Ok (open_link
        "https://github.com/daslearning-org/Ollama-AI-Chat-App/releases" sh).

(** The [try] block of [top_menu_callback]: [action] and [url] as the
    block leaves them. Both start as the empty string; a missing key ends
    the block, and what was assigned before stays assigned. *)
Definition menu_action (text_item : string) (sh : Shell) : string * string :=
  match Py.lookup text_item (top_menu_items sh) with
  | None => ("", "")
  | Some item =>
      match Py.lookup "action" item with
      | None => ("", "")
      | Some action =>
          match Py.lookup "url" item with
          | None => (action, "")
          | Some url => (action, url)
          end
      end
  end.

(** [top_menu_callback(text_item)] *)
Definition top_menu_callback (text_item : string) (sh : Shell) : Shell :=
  let sh := set_top_menu_open false sh in
  let '(action, url) := menu_action text_item sh in
  if String.eqb action "web" && negb (String.eqb url "") then
    open_link url sh
  else if String.eqb action "update" then
    show_text_dialog "Check for update" ("Your version: " +:+ __version__)
      [Cancel; Releases] sh
  else sh.

(** What the user can do with the menu and the dialog. A button can be
    pressed while its dialog is open. *)
Inductive event :=
| MenuBar
| TopMenu (text_item : string)
| Press (b : button).

Definition handle (ev : event) (sh : Shell) : option Shell :=
  match ev with
  | MenuBar => Some (menu_bar_callback sh)
  | TopMenu text_item => Some (top_menu_callback text_item sh)
  | Press b =>
      d ← txt_dialog sh;
      if is_open d && bool_decide (b ∈ buttons d) then
        match (match b with
               | Cancel => txt_dialog_closer sh
               | Releases => update_checker sh
               end) with
        | Ok sh' => Some sh'
        | Raise _ => None
        end
      else None
  end.

Fixpoint run (evs : list event) (sh : Shell) : option Shell :=
  match evs with
  | [] => Some sh
  | ev :: evs' => sh' ← handle ev sh; run evs' sh'
  end.

End menu.


(** ** Vocabulary of the specification *)

Module Spec.

(** The name of a well-formed entry of the [models] array: a dict with a
    [str] under [name]. Any other entry is malformed. *)
Definition entry_name (model : json) : option string :=
  match model with
  | JObj fields =>
      match Py.lookup "name" fields with
      | Some (JStr n) => Some n
      | _ => None
      end
  | _ => None
  end.

(** The names of the entries before the first malformed one. *)
Fixpoint named_prefix (models : list json) : list string :=
  match models with
  | [] => []
  | model :: models' =>
      match entry_name model with
      | Some n => n :: named_prefix models'
      | None => []
      end
  end.

(** A chat message and the two error results of the adapter. *)
Definition message (role content : string) : json :=
  JObj [("role", JStr role); ("content", JStr content)].

(** An entry [{"name": n}] and a 200 reply listing [models]. *)
Definition named (n : string) : json := JObj [("name", JStr n)].

Definition tags_reply (models : list json) : requests.Response := {|
  requests.url := "http://localhost:11434/api/tags";
  requests.status_code := 200;
  requests.reason := "OK";
  requests.json := Ok (JObj [("models", JArr models)]);
|}.

(** A 200 reply to the chat request with the decoded body [body]. *)
Definition chat_reply (body : json) : requests.Response := {|
  requests.url := "http://localhost:11434/api/chat";
  requests.status_code := 200;
  requests.reason := "OK";
  requests.json := Ok body;
|}.

(** A server that answers a chat request with what [f] makes of the
    address and the body it was sent: the message of the reply shows the
    request that reached [requests.post]. *)
Definition observe (f : string → json → json)
    : string → json → res requests.Response :=
  λ chat_url msg_body, Ok (chat_reply (JObj [("message", f chat_url msg_body)])).

(** The number of requests under way is what the guard says. *)
Definition guard_agrees (a : main.MyApp) : Prop :=
  main.outstanding a = if main.is_llm_running a then 1 else 0.

(** The delimiters of a hidden-reasoning block, in any letter case. *)
Definition ci : ascii → ascii → bool := Re.chr_eq main.think_flags.
Definition is_open (o : string) : bool := Text.eq_by ci "<THINK>" o.
Definition is_close (c : string) : bool := Text.eq_by ci "</THINK>" c.

(** The delimiter [p] begins at position [i] of [s]. *)
Definition begins (p : string) (i : nat) (s : string) : bool :=
  Text.startswith ci p (Text.drop i s).

(** [s] holds a block: an opening delimiter and a closing one after it. *)
Definition HasBlock (s : string) : Prop :=
  ∃ pre o body c post,
    s = pre +:+ o +:+ body +:+ c +:+ post
    ∧ is_open o = true ∧ is_close c = true.

(** A text as a sequence of plain stretches and markup tags: a tag is
    written [[name attr]] or [[/name attr]]. *)
Inductive piece :=
| Plain (text : string)
| Tag (closing : bool) (name attr : string).

Definition render (p : piece) : string :=
  match p with
  | Plain text => text
  | Tag closing name attr =>
      "[" +:+ (if closing then "/" else "") +:+ name +:+ attr +:+ "]"
  end.

Definition plain (p : piece) : string :=
  match p with
  | Plain text => text
  | Tag _ _ _ => ""
  end.

Definition join (l : list string) : string := foldr String.append "" l.

(** Plain text holds no opening bracket; a tag bears one of the listed
    names, and what follows the name holds no closing bracket and no line
    break. *)
Definition no_bracket (c : ascii) : bool := negb (Ascii.eqb c "[").
Definition in_tag (c : ascii) : bool :=
  negb (Ascii.eqb c "]") && negb (Ascii.eqb c "010").

Definition well_formed (p : piece) : Prop :=
  match p with
  | Plain text => Text.all no_bracket text = true
  | Tag _ name attr => name ∈ main.tag_names ∧ Text.all in_tag attr = true
  end.

(** A session whose transcript holds nine messages, and a network that
    refuses the connection. *)
Definition nine : main.MyApp :=
  main.set_messages
    (message "user" <$> ["1"; "2"; "3"; "4"; "5"; "6"; "7"; "8"; "9"])
    main.init.

Definition refuses : string → json → res requests.Response :=
  λ _ _, Raise (Exn "ConnectionError" "refused").

(** A result handed over in either delivery mode. *)
Definition delivered {C} (callback : option C) (result : json)
    : ollamaApi.delivery C :=
  match callback with
  | Some cb => ollamaApi.Scheduled cb result
  | None => ollamaApi.Returned result
  end.

(** The update dialog, open or closed, and the pages the program links
    to. *)
Definition update_dialog (open : bool) : menu.MDDialog := {|
  menu.title := "Check for update";
  menu.text := "Your version: 0.2.0";
  menu.buttons := [menu.Cancel; menu.Releases];
  menu.is_open := open;
|}.

Definition linked_pages : list string :=
  ["https://youtube.com/watch?v=a-azvqDL78k";
   "https://blog.daslearning.in/llm_ai/ollama/kivy-chat.html";
   "https://daslearning.in/contact/";
   "https://github.com/daslearning-org/Ollama-AI-Chat-App/releases"].

(** What every state of the menu and the dialog satisfies. *)
Definition menu_ok (sh : menu.Shell) : Prop :=
  menu.top_menu_items sh = menu.top_menu_items menu.init
  ∧ Forall (λ url, url ∈ linked_pages) (menu.browser sh)
  ∧ (menu.txt_dialog sh = None
     ∨ ∃ open, menu.txt_dialog sh = Some (update_dialog open)).

(** No closing bracket. *)
Definition no_close (c : ascii) : bool := negb (Ascii.eqb c "]").

(** A result the callback can deliver: it has a role and a [str]
    content. *)
Definition deliverable (v : json) : Prop :=
  ∃ role s,
    Py.getitem v "role" = Ok role ∧ Py.getitem v "content" = Ok (JStr s).

(** An entry of the transcript: a user message with the stripped text of a
    non-blank input, or a delivered message whose role is [assistant] and
    whose content is a [str]. *)
Definition transcript_entry (m : json) : Prop :=
  (∃ chat_input,
     m = message "user" (Text.strip chat_input)
     ∧ Text.strip chat_input ≠ "")
  ∨ (Py.getitem m "role" = Ok (JStr "assistant")
     ∧ ∃ s, Py.getitem m "content" = Ok (JStr s)).

(** The request a worker thread carries: a server address, and one to
    three transcript entries the last of which is a user message. *)
Definition request_ok (t : main.Thread) : Prop :=
  main.th_url t ≠ ""
  ∧ 1 ≤ length (main.th_messages t) ≤ 3
  ∧ Forall transcript_entry (main.th_messages t)
  ∧ ∃ chat_input,
      last (main.th_messages t)
      = Some (message "user" (Text.strip chat_input)).

(** The spinners in the chat history. *)
Definition spinners (a : main.MyApp) : nat :=
  length (filter (λ w, w = main.TempSpinWait) (main.chat_history a)).

(** What every state of a session satisfies. *)
Definition session_ok (a : main.MyApp) : Prop :=
  main.ollama_uri a ≠ ""
  ∧ Forall transcript_entry (main.messages a)
  ∧ Forall request_ok (main.threads a)
  ∧ spinners a = main.outstanding a.

End Spec.


(** * Properties *)

(** ** Facts about text *)

Module TextFacts.
Import Text.

Lemma app_cons (c : ascii) (s t : string) :
  String c s +:+ t = String c (s +:+ t).
Proof. reflexivity. Qed.

Lemma app_nil_l (s : string) : "" +:+ s = s.
Proof. reflexivity. Qed.

Lemma app_nil_r (s : string) : s +:+ "" = s.
Proof. induction s as [|c s IH]; [done|]. by rewrite app_cons, IH. Qed.

Lemma app_assoc (s t u : string) : (s +:+ t) +:+ u = s +:+ t +:+ u.
Proof. induction s as [|c s IH]; [done|]. by rewrite !app_cons, IH. Qed.

Lemma app_length (s t : string) :
  String.length (s +:+ t) = String.length s + String.length t.
Proof. induction s as [|c s IH]; [done|]. rewrite ?app_cons; simpl. lia. Qed.

Lemma drop_app_length (s t : string) : drop (String.length s) (s +:+ t) = t.
Proof. induction s as [|c s IH]; [done|]. by rewrite app_cons. Qed.

Lemma drop_app_le (n : nat) (s t : string) :
  n <= String.length s → drop n (s +:+ t) = drop n s +:+ t.
Proof.
  revert s; induction n as [|n IH]; intros s Hn; [done|].
  destruct s as [|c s]; simpl in Hn; [lia|].
  rewrite ?app_cons; simpl. apply IH. lia.
Qed.

Lemma eq_by_length eqc p s :
  eq_by eqc p s = true → String.length s = String.length p.
Proof.
  revert s; induction p as [|a p IH]; intros [|b s] H; simpl in *;
    try done.
  apply andb_true_iff in H as [_ H]. by rewrite (IH s H).
Qed.

Lemma startswith_app eqc p o t :
  eq_by eqc p o = true → startswith eqc p (o +:+ t) = true.
Proof.
  revert o; induction p as [|a p IH]; intros [|b o] H; simpl in *;
    try done.
  apply andb_true_iff in H as [Hab H]. rewrite ?app_cons; simpl.
  by rewrite Hab, IH.
Qed.

Lemma startswith_split eqc p s :
  startswith eqc p s = true →
  ∃ o t, s = o +:+ t ∧ eq_by eqc p o = true.
Proof.
  revert s; induction p as [|a p IH]; intros s H.
  - by exists "", s.
  - destruct s as [|b s]; simpl in H; [done|].
    apply andb_true_iff in H as [Hab H].
    destruct (IH s H) as (o & t & -> & Ho).
    exists (String b o), t. split; [done|]. simpl. by rewrite Hab, Ho.
Qed.

(** Only the first [length p] characters of the text matter. *)
Lemma startswith_app_l eqc p s t :
  String.length p <= String.length s →
  startswith eqc p (s +:+ t) = startswith eqc p s.
Proof.
  revert s; induction p as [|a p IH]; intros s Hl; [done|].
  destruct s as [|b s]; simpl in Hl; [lia|].
  rewrite ?app_cons; simpl. rewrite IH; [done|lia].
Qed.

Lemma eq_by_eqb p s : eq_by Ascii.eqb p s = true ↔ p = s.
Proof.
  revert s; induction p as [|a p IH]; intros [|b s]; simpl; try done.
  rewrite andb_true_iff, IH, Ascii.eqb_eq.
  split; [by intros [-> ->]|by intros [= -> ->]].
Qed.

Lemma startswith_eqb p s :
  startswith Ascii.eqb p s = true ↔ ∃ t, s = p +:+ t.
Proof.
  split.
  - intros (o & t & -> & Ho)%startswith_split.
    apply eq_by_eqb in Ho as ->. by exists t.
  - intros [t ->]. apply startswith_app. by apply eq_by_eqb.
Qed.

Lemma find_from_spec sub s i :
  (0 <= i)%Z →
  (find_from sub s i = (-1)%Z ∧ ¬ Substring sub s)
  ∨ ((i <= find_from sub s i)%Z ∧ Substring sub s).
Proof.
  revert i; induction s as [|c s IH]; intros i Hi; simpl.
  - destruct (startswith Ascii.eqb sub "") eqn:E.
    + right. split; [lia|]. apply startswith_eqb in E as [t E].
      by exists "", t.
    + left. split; [done|]. intros (pre & post & E').
      destruct pre; [|done]. rewrite app_nil_l in E'.
      assert (startswith Ascii.eqb sub "" = true); [|congruence].
      apply startswith_eqb. by exists post.
  - destruct (startswith Ascii.eqb sub (String c s)) eqn:E.
    + right. split; [lia|]. apply startswith_eqb in E as [t E].
      by exists "", t.
    + destruct (IH (i + 1)%Z ltac:(lia)) as [[-> Hn]|[Hle (pre & post & ->)]].
      * left. split; [done|]. intros (pre & post & E').
        destruct pre as [|a pre].
        -- rewrite app_nil_l in E'.
           assert (startswith Ascii.eqb sub (String c s) = true);
             [|congruence].
           apply startswith_eqb. by exists post.
        -- simpl in E'. injection E' as -> ->.
           apply Hn. by exists pre, post.
      * right. split; [lia|]. by exists (String c pre), post.
Qed.

Lemma find_none s sub : find s sub = (-1)%Z ↔ ¬ Substring sub s.
Proof.
  unfold find.
  destruct (find_from_spec sub s 0 ltac:(lia)) as [[-> ?]|[? ?]];
    [done|]. split; [lia|done].
Qed.

#[global] Instance Substring_dec sub s : Decision (Substring sub s).
Proof.
  destruct (decide (find s sub = (-1)%Z)) as [H|H]; [right|left].
  - by apply find_none.
  - unfold find in H.
    destruct (find_from_spec sub s 0 ltac:(lia)) as [[? ?]|[? ?]]; done.
Defined.

Lemma drop_length n s : String.length (drop n s) = String.length s - n.
Proof.
  revert s; induction n as [|n IH]; intros [|c s]; simpl; try done; lia.
Qed.

(** A pattern that begins inside [x] does not reach past [x +:+ d] when
    [d] is as long as the pattern. *)
Lemma startswith_drop_app eqc p x d y i :
  i < String.length x → String.length p <= String.length d →
  startswith eqc p (drop i (x +:+ d +:+ y))
  = startswith eqc p (drop i (x +:+ d)).
Proof.
  intros Hi Hp. rewrite <-app_assoc, drop_app_le.
  - apply startswith_app_l. rewrite drop_length, app_length. lia.
  - rewrite app_length. lia.
Qed.

End TextFacts.


(** ** Facts about the matcher and the scan *)

Module ReFacts.
Import Re.

Section Matcher.
Variable fl : flags.

Lemma run_str w k s :
  run fl (Str w) k s
  = if Text.startswith (chr_eq fl) w s
    then k (Text.drop (String.length w) s) else None.
Proof. reflexivity. Qed.

Lemma run_cat r1 r2 k s :
  run fl (Cat r1 r2) k s = run fl r1 (run fl r2 k) s.
Proof. reflexivity. Qed.

Lemma run_opt r k s :
  run fl (Opt r) k s
  = match run fl r k s with Some rest => Some rest | None => k s end.
Proof. reflexivity. Qed.

Lemma lazy_dots_split ok k s x :
  lazy_dots ok k s = Some x →
  ∃ b t, s = b +:+ t ∧ k t = Some x ∧ Text.all ok b = true.
Proof.
  induction s as [|c s IH]; simpl.
  - destruct (k "") eqn:E; [|done]. intros [= ->]. by exists "", "".
  - destruct (k (String c s)) eqn:E.
    + intros [= ->]. by exists "", (String c s).
    + destruct (ok c) eqn:Hc; [|done]. intros (b & t & -> & Ht & Hb)%IH.
      exists (String c b), t. simpl. by rewrite Hc, Hb.
Qed.

Lemma lazy_dots_skip ok k b t :
  Text.all ok b = true →
  (∀ i, i < String.length b → k (Text.drop i (b +:+ t)) = None) →
  lazy_dots ok k (b +:+ t) = lazy_dots ok k t.
Proof.
  induction b as [|c b IH]; intros Hb Hk; [done|].
  simpl in Hb. apply andb_true_iff in Hb as [Hc Hb].
  pose proof (Hk 0 ltac:(simpl; lia)) as H0.
  rewrite TextFacts.app_cons in *. simpl in H0. simpl. rewrite H0, Hc.
  apply IH; [done|]. intros i Hi. apply (Hk (S i)). simpl; lia.
Qed.

Lemma run_split r : ∀ k s x,
  run fl r k s = Some x → ∃ u t, s = u +:+ t ∧ k t = Some x.
Proof.
  induction r as [w|r1 IH1 r2 IH2|r1 IH1 r2 IH2|r1 IH1|]; intros k s x; simpl.
  - destruct (Text.startswith _ w s) eqn:E; [|done].
    apply TextFacts.startswith_split in E as (o & t & -> & Ho).
    rewrite <-(TextFacts.eq_by_length _ _ _ Ho), TextFacts.drop_app_length. eauto.
  - intros (u & t & -> & (u' & t' & -> & Hk)%IH2)%IH1.
    exists (u +:+ u'), t'. by rewrite TextFacts.app_assoc.
  - destruct (run fl r1 k s) eqn:E.
    + intros [= ->]. eauto.
    + eauto.
  - destruct (run fl r1 k s) eqn:E.
    + intros [= ->]. eauto.
    + intros Hk. by exists "", s.
  - intros (b & t & -> & Ht & _)%lazy_dots_split. eauto.
Qed.

Lemma match_at_split r s rest :
  match_at fl r s = Some rest → ∃ u, s = u +:+ rest.
Proof. intros (u & t & -> & [= ->])%run_split. eauto. Qed.

Lemma scan_skip r u t : scan fl r (String.length u) (u +:+ t) = scan fl r 0 t.
Proof.
  induction u as [|c u IH]; simpl; [|done].
  destruct t; [done|]. reflexivity.
Qed.

(** A match at the current position is left out and the scan resumes
    right after it. *)
Lemma sub_del_match r u rest :
  u ≠ "" → match_at fl r (u +:+ rest) = Some rest →
  sub_del fl r (u +:+ rest) = sub_del fl r rest.
Proof.
  intros Hu Hm. destruct u as [|c u]; [done|].
  assert (match_len fl r (String c u +:+ rest) = Some (S (String.length u)))
    as Hl.
  { unfold match_len. rewrite Hm. simpl. rewrite TextFacts.app_length.
    f_equal. simpl. lia. }
  rewrite TextFacts.app_cons in *. unfold sub_del. cbn [scan]. rewrite Hl.
  apply scan_skip.
Qed.

(** Where no match begins, the character is kept. *)
Lemma sub_del_plain r t s :
  (∀ i, i < String.length t → match_at fl r (Text.drop i (t +:+ s)) = None) →
  sub_del fl r (t +:+ s) = t +:+ sub_del fl r s.
Proof.
  induction t as [|c t IH]; intros Hm; [done|].
  pose proof (Hm 0 ltac:(simpl; lia)) as H0.
  rewrite TextFacts.app_cons in *. simpl in H0.
  unfold sub_del. cbn [scan]. unfold match_len. rewrite H0. simpl.
  rewrite ?TextFacts.app_cons. f_equal. apply IH. intros i Hi. apply (Hm (S i)). simpl; lia.
Qed.

Lemma scan_length r n s :
  String.length (scan fl r n s) <= String.length s.
Proof.
  revert n; induction s as [|c s IH]; intros n; simpl; [done|].
  destruct n as [|n].
  - destruct (match_len fl r (String c s)) as [[|m]|]; simpl;
      try (specialize (IH 0); lia). specialize (IH m); lia.
  - specialize (IH n); lia.
Qed.

Lemma sub_del_nomatch r c s :
  match_at fl r (String c s) = None →
  sub_del fl r (String c s) = String c (sub_del fl r s).
Proof.
  intros Hm. unfold sub_del. cbn [scan]. unfold match_len. by rewrite Hm.
Qed.

Lemma sub_del_length r s :
  String.length (sub_del fl r s) <= String.length s.
Proof. apply scan_length. Qed.

(** Once a match begins somewhere in the text, the result is shorter than
    the text, provided no match of the pattern is empty. *)
Lemma sub_del_shrinks r pre t y :
  (∀ t' y', match_at fl r t' = Some y' →
            String.length y' < String.length t') →
  match_at fl r t = Some y →
  String.length (sub_del fl r (pre +:+ t)) < String.length (pre +:+ t).
Proof.
  intros Hne Hm.
  assert (∀ s y', match_at fl r s = Some y' →
                  String.length (sub_del fl r s) < String.length s) as Hhit.
  { intros s y' Hs. pose proof (Hne _ _ Hs) as Hlt.
    destruct (match_at_split _ _ _ Hs) as [u ->].
    rewrite TextFacts.app_length in Hlt.
    rewrite sub_del_match; [|intros ->; simpl in Hlt; lia|done].
    pose proof (sub_del_length r y'). rewrite TextFacts.app_length. lia. }
  induction pre as [|c pre IH]; [by apply (Hhit _ y)|].
  rewrite TextFacts.app_cons.
  destruct (match_at fl r (String c (pre +:+ t))) as [y'|] eqn:E.
  - by apply (Hhit _ y').
  - rewrite sub_del_nomatch by done. cbn [String.length]. lia.
Qed.

Lemma lazy_dots_hit ok k s x : k s = Some x → lazy_dots ok k s = Some x.
Proof. intros H. destruct s; simpl; by rewrite H. Qed.

(** [.*?] succeeds when the continuation does somewhere ahead and every
    character up to there is accepted. *)
Lemma lazy_dots_complete ok k b t x :
  Text.all ok b = true → k t = Some x → is_Some (lazy_dots ok k (b +:+ t)).
Proof.
  intros Hb Hk. induction b as [|c b IH].
  - rewrite (lazy_dots_hit _ _ _ _ Hk). eauto.
  - simpl in Hb. apply andb_true_iff in Hb as [Hc Hb].
    rewrite TextFacts.app_cons. simpl.
    destruct (k (String c (b +:+ t))); [eauto|]. rewrite Hc. by apply IH.
Qed.

(** The character at a position inside [t], when all of [t] satisfy [ok]. *)
Lemma all_drop ok t s i :
  Text.all ok t = true → i < String.length t →
  ∃ c u, Text.drop i (t +:+ s) = String c u ∧ ok c = true.
Proof.
  revert i; induction t as [|c t IH]; intros i Ht Hi; simpl in Hi; [lia|].
  simpl in Ht. apply andb_true_iff in Ht as [Hc Ht].
  destruct i as [|i].
  - by exists c, (t +:+ s).
  - rewrite TextFacts.app_cons. simpl. apply IH; [done|lia].
Qed.

Lemma all_app ok s t : Text.all ok (s +:+ t) = Text.all ok s && Text.all ok t.
Proof.
  induction s as [|c s IH]; [done|].
  rewrite TextFacts.app_cons. simpl. by rewrite IH, andb_assoc.
Qed.

Lemma all_impl (ok ok' : ascii → bool) s :
  (∀ c, ok c = true → ok' c = true) → Text.all ok s = true → Text.all ok' s = true.
Proof.
  intros H. induction s as [|c s IH]; simpl; [done|].
  intros [Hc Hs]%andb_true_iff. by rewrite (H _ Hc), IH.
Qed.

End Matcher.

End ReFacts.


(** ** The model-server adapter *)

Section Adapter.
Import ollamaApi Spec.

#[global] Instance Substring_dec sub s : Decision (Text.Substring sub s).
Proof.
  destruct (decide (Text.find s sub = (-1)%Z)) as [H|H]; [right|left].
  - by apply TextFacts.find_none.
  - unfold Text.find in H.
    destruct (TextFacts.find_from_spec sub s 0 ltac:(lia)) as [[? ?]|[? ?]];
      done.
Defined.

Lemma visit_named model n :
  entry_name model = Some n →
  visit model
  = Ok (if decide (Text.Substring "embed" n) then None else Some n).
Proof.
  unfold entry_name, visit. destruct model as [| | | | |xs|fields]; try done.
  simpl. destruct (Py.lookup "name" fields) as [[| | | |s| |]|]; try done.
  intros [= ->]. simpl.
  destruct (decide (Text.Substring "embed" n)) as [H|H].
  - destruct (Z.eqb_spec (Text.find n "embed") (-1)) as [E|E]; [|done].
    by apply TextFacts.find_none in E.
  - apply TextFacts.find_none in H. by rewrite H.
Qed.

Lemma visit_malformed model :
  entry_name model = None → ∃ e, visit model = Raise e.
Proof.
  unfold entry_name, visit. destruct model as [| | | | |xs|fields]; simpl;
    eauto.
  destruct (Py.lookup "name" fields) as [[| | | |s| |]|]; simpl; eauto.
  done.
Qed.

Lemma collect_named got models names :
  Forall2 (λ m n, entry_name m = Some n) models names →
  collect got models
  = (got ++ filter (λ n, ¬ Text.Substring "embed" n) names, Ok ()).
Proof.
  intros H. revert got. induction H as [|m n ms ns Hm _ IH]; intros got.
  - by rewrite app_nil_r.
  - simpl. rewrite (visit_named _ _ Hm), filter_cons.
    destruct (decide (Text.Substring "embed" n)) as [Hn|Hn].
    + rewrite decide_False by tauto. apply IH.
    + rewrite decide_True by done. rewrite IH. by rewrite <-app_assoc.
Qed.

Lemma collect_stops got good names bad rest :
  Forall2 (λ m n, entry_name m = Some n) good names →
  entry_name bad = None →
  (collect got (good ++ bad :: rest)).1
  = got ++ filter (λ n, ¬ Text.Substring "embed" n) names.
Proof.
  intros H Hbad. revert got. induction H as [|m n ms ns Hm _ IH]; intros got.
  - simpl. destruct (visit_malformed _ Hbad) as [e ->]. simpl.
    by rewrite app_nil_r.
  - simpl. rewrite (visit_named _ _ Hm), filter_cons.
    destruct (decide (Text.Substring "embed" n)) as [Hn|Hn].
    + rewrite decide_False by tauto. apply IH.
    + rewrite decide_True by done. rewrite IH. by rewrite <-app_assoc.
Qed.

Lemma named_prefix_split models :
  Forall2 (λ m n, entry_name m = Some n) models (named_prefix models)
  ∨ (∃ good bad rest,
        models = good ++ bad :: rest
        ∧ Forall2 (λ m n, entry_name m = Some n) good (named_prefix models)
        ∧ entry_name bad = None).
Proof.
  induction models as [|m ms IH]; simpl.
  - left. constructor.
  - destruct (entry_name m) as [n|] eqn:E.
    + destruct IH as [H|(good & bad & rest & Hms & H & Hb)].
      * left. by constructor.
      * right. exists (m :: good), bad, rest. rewrite Hms at 1.
        split; [done|]. split; [by constructor|done].
    + right. exists [], m, ms. split; [done|]. split; [constructor|done].
Qed.

(** Whatever the entries are, the loop leaves the filtered names of the
    entries before the first malformed one. *)
Lemma collect_result models :
  (collect [] models).1
  = filter (λ n, ¬ Text.Substring "embed" n) (named_prefix models).
Proof.
  destruct (named_prefix_split models) as [H|(good & bad & rest & E & H & Hb)].
  - by rewrite (collect_named _ _ _ H).
  - rewrite E at 1. by rewrite (collect_stops _ _ _ _ _ H Hb).
Qed.

Lemma get_llm_models_decoded get url r fields entries :
  get (url +:+ "/api/tags") = Ok r →
  requests.raise_for_status r = Ok () →
  requests.json r = Ok (JObj fields) →
  Py.lookup "models" fields = Some (JArr entries) →
  get_llm_models get url = (collect [] entries).1.
Proof.
  intros Hget Hst Hjs Hm. unfold get_llm_models. rewrite Hget. simpl.
  rewrite Hst. simpl. rewrite Hjs. simpl. rewrite Hm. simpl.
  by destruct (collect [] entries) as [got []].
Qed.

(** C2: when the listing reply decodes to an object whose [models] array
    holds entries with a [name], [get_llm_models] returns exactly the names
    that do not contain the substring [embed], in the order of the reply. *)
Theorem list_models_embed_filter get url r fields entries names :
  get (url +:+ "/api/tags") = Ok r →
  requests.raise_for_status r = Ok () →
  requests.json r = Ok (JObj fields) →
  Py.lookup "models" fields = Some (JArr entries) →
  Forall2 (λ m n, entry_name m = Some n) entries names →
  get_llm_models get url = filter (λ n, ¬ Text.Substring "embed" n) names.
Proof.
  intros Hget Hst Hjs Hm Hnames.
  rewrite (get_llm_models_decoded _ _ _ _ _ Hget Hst Hjs Hm).
  by rewrite (collect_named _ _ _ Hnames).
Qed.

(** The listing a, a-embed, embedder, b gives a, b. *)
Lemma list_models_embed_filter_witness :
  get_llm_models
    (λ _, Ok (tags_reply (named <$> ["a"; "a-embed"; "embedder"; "b"])))
    "http://localhost:11434"
  = ["a"; "b"].
Proof.
  refine (list_models_embed_filter
            (λ _, Ok (tags_reply (named <$> ["a"; "a-embed"; "embedder"; "b"])))
            "http://localhost:11434" _ _ _ ["a"; "a-embed"; "embedder"; "b"]
            eq_refl eq_refl eq_refl eq_refl _).
  simpl. repeat constructor.
Defined.

(** C5: [get_llm_models] always hands back a list. A transport failure,
    a 4xx or 5xx status and a body that does not decode each give the
    empty list; so does a reply that lists no model. In every case the list
    is empty or holds the names collected from a decoded reply. *)
Theorem list_models_fail_soft get url :
  (∀ e, get (url +:+ "/api/tags") = Raise e → get_llm_models get url = [])
  ∧ (∀ r, get (url +:+ "/api/tags") = Ok r →
          (400 ≤ requests.status_code r < 600)%Z →
          get_llm_models get url = [])
  ∧ (∀ r e, get (url +:+ "/api/tags") = Ok r →
            requests.json r = Raise e →
            get_llm_models get url = [])
  ∧ (∀ r fields, get (url +:+ "/api/tags") = Ok r →
                 requests.raise_for_status r = Ok () →
                 requests.json r = Ok (JObj fields) →
                 Py.lookup "models" fields = Some (JArr []) →
                 get_llm_models get url = [])
  ∧ (get_llm_models get url = []
     ∨ ∃ r models_data models,
         get (url +:+ "/api/tags") = Ok r
         ∧ requests.json r = Ok models_data
         ∧ (Py.get_default models_data "models" (JArr []) ≫= Py.iter)
           = Ok models
         ∧ get_llm_models get url
           = filter (λ n, ¬ Text.Substring "embed" n) (named_prefix models)).
Proof.
  split_and!.
  - intros e He. unfold get_llm_models. by rewrite He.
  - intros r Hr Hc. unfold get_llm_models. rewrite Hr. simpl.
    unfold requests.raise_for_status.
    destruct (Z.leb_spec 400 (requests.status_code r)); [|lia].
    destruct (Z.ltb_spec (requests.status_code r) 500); [done|].
    destruct (Z.leb_spec 500 (requests.status_code r)); [|lia].
    destruct (Z.ltb_spec (requests.status_code r) 600); [done|lia].
  - intros r e Hr He. unfold get_llm_models. rewrite Hr. simpl.
    destruct (requests.raise_for_status r); [|done]. simpl. by rewrite He.
  - intros r fields Hr Hst Hjs Hm.
    by rewrite (get_llm_models_decoded _ _ _ _ _ Hr Hst Hjs Hm).
  - unfold get_llm_models.
    destruct (get (url +:+ "/api/tags")) as [r|e] eqn:Hr; [|by left]. simpl.
    destruct (requests.raise_for_status r); [|by left]. simpl.
    destruct (requests.json r) as [models_data|e] eqn:Hj; [|by left]. simpl.
    change (λ models : json, Py.iter models) with Py.iter.
    destruct (Py.get_default models_data "models" (JArr []) ≫= Py.iter)
      as [models|e] eqn:E; [|by left].
    right. exists r, models_data, models. split_and!; try done.
    rewrite <-collect_result. by destruct (collect [] models) as [got []].
Qed.

(** C9, as the code has it: the names before the first malformed entry
    are returned, filtered and in order; that entry ends the listing. *)
Theorem list_models_stops_at_malformed get url r fields good names bad rest :
  get (url +:+ "/api/tags") = Ok r →
  requests.raise_for_status r = Ok () →
  requests.json r = Ok (JObj fields) →
  Py.lookup "models" fields = Some (JArr (good ++ bad :: rest)) →
  Forall2 (λ m n, entry_name m = Some n) good names →
  entry_name bad = None →
  get_llm_models get url = filter (λ n, ¬ Text.Substring "embed" n) names.
Proof.
  intros Hget Hst Hjs Hm Hnames Hbad.
  rewrite (get_llm_models_decoded _ _ _ _ _ Hget Hst Hjs Hm).
  by rewrite (collect_stops _ _ _ _ _ Hnames Hbad).
Qed.

Lemma list_models_stops_at_malformed_witness :
  get_llm_models (λ _, Ok (tags_reply [named "a"; JObj []; named "b"]))
    "http://localhost:11434"
  = ["a"].
Proof.
  refine (list_models_stops_at_malformed
            (λ _, Ok (tags_reply [named "a"; JObj []; named "b"]))
            "http://localhost:11434" _ _ [named "a"] ["a"] (JObj [])
            [named "b"]
            eq_refl eq_refl eq_refl eq_refl _ eq_refl).
  repeat constructor.
Defined.

(** C9 as stated fails: the entry b is well formed, passes the filter and
    follows a malformed entry, and it is not in the result. *)
Lemma list_models_mixed_counterexample :
  entry_name (named "b") = Some "b"
  ∧ ¬ Text.Substring "embed" "b"
  ∧ "b" ∉ get_llm_models
            (λ _, Ok (tags_reply [named "a"; JObj []; named "b"]))
            "http://localhost:11434".
Proof.
  split; [done|]. split; [by apply TextFacts.find_none|].
  replace (get_llm_models _ _) with ["a"] by (by vm_compute).
  by intros H%list_elem_of_singleton.
Qed.

(** A chat reply that decodes to an object without a [message] field
    gives the fixed error result, in either delivery mode. *)
Lemma chat_missing_message_field {C} post url model messages
    (callback : option C) r fields :
  post (chat_url url) (msg_body model messages) = Ok r →
  requests.json r = Ok (JObj fields) →
  Py.lookup "message" fields = None →
  chat_with_llm post url model messages callback
  = delivered callback (message "error" "**Error** in LLM response!").
Proof.
  intros Hpost Hjs Hm. unfold chat_with_llm, chat_response.
  rewrite Hpost. simpl. rewrite Hjs. simpl. rewrite Hm.
  rewrite bool_decide_eq_false_2 by (by intros [? ?]). done.
Qed.

(** A body that decodes to a number is no container: the membership test
    raises, and the [except] clause answers with the text of that
    exception. *)
Lemma chat_body_is_number post url model messages r n :
  post (chat_url url) (msg_body model messages) = Ok r →
  requests.json r = Ok (JInt n) →
  chat_response post url model messages
  = message "error"
      "**Error** with Ollama: argument of type 'int' is not iterable".
Proof.
  intros Hpost Hjs. unfold chat_response. rewrite Hpost. simpl.
  by rewrite Hjs.
Qed.

(** ["message" in xs] for a list. *)
Lemma contains_list key xs :
  existsb (λ x, Py.eq_str x key) xs = true ↔ JStr key ∈ xs.
Proof.
  induction xs as [|x xs IH]; simpl.
  - split; [done|]. by intros ?%elem_of_nil.
  - rewrite orb_true_iff, IH, elem_of_cons.
    assert (Py.eq_str x key = true ↔ JStr key = x) as ->; [|done].
    destruct x as [| | | |s| |]; simpl; try by split.
    rewrite String.eqb_eq. split; [by intros ->|by intros [= ->]].
Qed.

(** The two error results differ whatever the text of the exception. *)
Lemma error_results_differ {C} (callback : option C) text :
  delivered callback (message "error" ("**Error** with Ollama: " +:+ text))
  ≠ delivered callback (message "error" "**Error** in LLM response!").
Proof. by destruct callback. Qed.

(** C3, amended: which replies without a [message] field give the fixed
    error result. A body that decodes to an object lacking the field does,
    and so does a list that does not hold the string message and a string
    that does not contain it, in either delivery mode. For any other body
    that is no object (null, a boolean, a number, a list that holds the
    string message, a string that contains it) the test or the lookup
    raises a TypeError, and the result is the other error result, with
    the text of that exception. *)
Theorem chat_shape_failure {C} post url model messages
    (callback : option C) r body :
  post (chat_url url) (msg_body model messages) = Ok r →
  requests.json r = Ok body →
  ((∃ fields, body = JObj fields ∧ Py.lookup "message" fields = None)
   ∨ (∃ xs, body = JArr xs ∧ JStr "message" ∉ xs)
   ∨ (∃ s, body = JStr s ∧ ¬ Text.Substring "message" s) →
   chat_with_llm post url model messages callback
   = delivered callback (message "error" "**Error** in LLM response!"))
  ∧ (body = JNull ∨ (∃ b, body = JBool b) ∨ (∃ n, body = JInt n)
     ∨ (∃ lit, body = JFloat lit)
     ∨ (∃ xs, body = JArr xs ∧ JStr "message" ∈ xs)
     ∨ (∃ s, body = JStr s ∧ Text.Substring "message" s) →
     ∃ e,
       exn_class e = "TypeError"
       ∧ chat_with_llm post url model messages callback
         = delivered callback
             (message "error" ("**Error** with Ollama: " +:+ exn_text e))
       ∧ chat_with_llm post url model messages callback
         ≠ delivered callback (message "error" "**Error** in LLM response!")).
Proof.
  intros Hpost Hjs.
  assert (∀ e,
    (has_message ← Py.contains "message" body;
     if has_message : bool then Py.getitem body "message"
     else Ok (message "error" "**Error** in LLM response!")) = Raise e →
    chat_with_llm post url model messages callback
    = delivered callback
        (message "error" ("**Error** with Ollama: " +:+ exn_text e)))
    as Hraise.
  { intros e He. unfold chat_with_llm, chat_response.
    rewrite Hpost. simpl. rewrite Hjs. simpl.
    unfold message in He. simpl in He. rewrite He. by destruct callback. }
  assert (∀ e,
    (has_message ← Py.contains "message" body;
     if has_message : bool then Py.getitem body "message"
     else Ok (message "error" "**Error** in LLM response!")) = Raise e →
    exn_class e = "TypeError" →
    ∃ e,
      exn_class e = "TypeError"
      ∧ chat_with_llm post url model messages callback
        = delivered callback
            (message "error" ("**Error** with Ollama: " +:+ exn_text e))
      ∧ chat_with_llm post url model messages callback
        ≠ delivered callback (message "error" "**Error** in LLM response!"))
    as Hother.
  { intros e He Hc. exists e. split; [done|].
    rewrite (Hraise e He). split; [done|]. apply error_results_differ. }
  split.
  - intros [(fields & -> & Hm)|[(xs & -> & Hxs)|(s & -> & Hs)]].
    + by apply (chat_missing_message_field post url model messages
                  callback r fields).
    + unfold chat_with_llm, chat_response.
      rewrite Hpost. simpl. rewrite Hjs. simpl.
      destruct (existsb _ xs) eqn:E; [by apply contains_list in E|].
      by destruct callback.
    + unfold chat_with_llm, chat_response.
      rewrite Hpost. simpl. rewrite Hjs. simpl.
      apply TextFacts.find_none in Hs. rewrite Hs. by destruct callback.
  - intros [->|[(b & ->)|[(n & ->)|[(lit & ->)|[(xs & -> & Hxs)
             |(s & -> & Hs)]]]]].
    + by eapply Hother.
    + by eapply Hother.
    + by eapply Hother.
    + by eapply Hother.
    + apply (Hother (Py.TypeError
                       "list indices must be integers or slices, not str"));
        [|done].
      simpl. apply contains_list in Hxs. by rewrite Hxs.
    + apply (Hother (Py.TypeError
                       "string indices must be integers, not 'str'"));
        [|done].
      simpl. destruct (Text.find s "message" =? -1)%Z eqn:E; [|done].
      apply Z.eqb_eq, TextFacts.find_none in E. done.
Qed.

(** The body x = 1, returned to the caller. *)
Lemma chat_shape_failure_witness :
  chat_with_llm (λ _ _, Ok (chat_reply (JObj [("x", JInt 1)])))
    "http://localhost:11434" "llama3" [message "user" "hi"] (None : option ())
  = ollamaApi.Returned (message "error" "**Error** in LLM response!").
Proof.
  refine (proj1 (chat_shape_failure
                   (λ _ _, Ok (chat_reply (JObj [("x", JInt 1)])))
                   "http://localhost:11434" "llama3" [message "user" "hi"]
                   None _ _ eq_refl eq_refl) _).
  left. by exists [("x", JInt 1)].
Defined.

(** C3 as stated fails: the body 5 is well-formed JSON and has no
    [message] field, and the result is not the fixed one. *)
Lemma chat_number_body_counterexample :
  requests.json (chat_reply (JInt 5)) = Ok (JInt 5)
  ∧ chat_with_llm (λ _ _, Ok (chat_reply (JInt 5)))
      "http://localhost:11434" "llama3" [message "user" "hi"]
      (None : option ())
    = ollamaApi.Returned
        (message "error"
           "**Error** with Ollama: argument of type 'int' is not iterable")
  ∧ chat_with_llm (λ _ _, Ok (chat_reply (JInt 5)))
      "http://localhost:11434" "llama3" [message "user" "hi"]
      (None : option ())
    ≠ ollamaApi.Returned (message "error" "**Error** in LLM response!").
Proof. split_and!; [reflexivity|reflexivity|by vm_compute]. Qed.

(** C4: an exception raised by the POST or by decoding the body is
    caught; the result has role [error] and its content is the fixed
    prefix followed by the text of the exception, which therefore occurs in
    it. The result is handed over as any other. *)
Theorem chat_transport_failure {C} post url model messages
    (callback : option C) e :
  post (chat_url url) (msg_body model messages) = Raise e
  ∨ (∃ r, post (chat_url url) (msg_body model messages) = Ok r
          ∧ requests.json r = Raise e) →
  chat_with_llm post url model messages callback
  = delivered callback
      (message "error" ("**Error** with Ollama: " +:+ exn_text e))
  ∧ Text.Substring (exn_text e) ("**Error** with Ollama: " +:+ exn_text e).
Proof.
  intros H. split.
  - unfold chat_with_llm, chat_response.
    destruct H as [->|(r & -> & Hjs)]; [done|]. simpl. by rewrite Hjs.
  - exists "**Error** with Ollama: ", "". by rewrite TextFacts.app_nil_r.
Qed.

(** A refused connection. *)
Lemma chat_transport_failure_witness :
  chat_with_llm (λ _ _, Raise (Exn "ConnectionError" "refused"))
    "http://localhost:11434" "llama3" [message "user" "hi"] (Some ())
  = ollamaApi.Scheduled ()
      (message "error" "**Error** with Ollama: refused")
  ∧ Text.Substring "refused" "**Error** with Ollama: refused".
Proof.
  exact (chat_transport_failure
           (λ _ _, Raise (Exn "ConnectionError" "refused"))
           "http://localhost:11434" "llama3" [message "user" "hi"] (Some ())
           (Exn "ConnectionError" "refused") (or_introl eq_refl)).
Defined.

End Adapter.


(** ** The chat session *)

Section Session.
Import main Spec.

Lemma slice_last_three {A} (l : list A) :
  Py.slice_from (-3) l = drop (length l - 3) l.
Proof. unfold Py.slice_from. simpl. f_equal. lia. Qed.

(** A send that is accepted: the guard is clear and the text is not
    blank. *)
Lemma send_message_accepted chat_input a :
  is_llm_running a = false → Text.strip chat_input ≠ "" →
  let transcript := messages a ++ [message "user" (Text.strip chat_input)] in
  send_message chat_input a
  = ({| ollama_uri := ollama_uri a;
        selected_llm := selected_llm a;
        messages := transcript;
        is_llm_running := true;
        chat_history :=
          (chat_history a
           ++ [UsrLabel ("[b][color=#2196F3]You:[/color][/b] "
                         +:+ Text.strip chat_input)])
          ++ [TempSpinWait];
        toasts := toasts a;
        threads :=
          threads a
          ++ [{| th_url := ollama_uri a;
                 th_model := selected_llm a;
                 th_messages := Py.slice_from (-3) transcript |}];
        clock := clock a |}, "").
Proof.
  intros Hrun Htext. unfold send_message. rewrite Hrun.
  destruct (String.eqb_spec (Text.strip chat_input) ""); [done|]. done.
Qed.

Lemma send_message_busy chat_input a :
  is_llm_running a = true →
  send_message chat_input a
  = (show_toast_msg "Please wait for the current response" true a,
     chat_input).
Proof. intros Hrun. unfold send_message. by rewrite Hrun. Qed.

Lemma send_message_blank chat_input a :
  is_llm_running a = false → Text.strip chat_input = "" →
  send_message chat_input a
  = (show_toast_msg "Please type a message!" true a, chat_input).
Proof. intros Hrun Htext. unfold send_message. by rewrite Hrun, Htext. Qed.

(** What a callback that returns leaves behind. *)
Lemma ollama_callback_ok llm_resp a a' :
  ollama_callback llm_resp a = Ok a' →
  ∃ role,
    Py.getitem llm_resp "role" = Ok role
    ∧ messages a'
      = (if Py.eq_str role "assistant" then messages a ++ [llm_resp]
         else messages a)
    ∧ is_llm_running a' = false
    ∧ threads a' = threads a
    ∧ clock a' = clock a.
Proof.
  unfold ollama_callback.
  destruct (Py.getitem llm_resp "role") as [role|]; [|done]. simpl.
  destruct (Py.getitem llm_resp "content") as [content|]; [|done]. simpl.
  destruct (re_sub_think content) as [api_msg|]; [|done]. simpl.
  intros [= <-]. exists role. by destruct (Py.eq_str role "assistant").
Qed.

Lemma guard_agrees_step a ev a' :
  guard_agrees a → handle ev a = Some a' → guard_agrees a'.
Proof.
  unfold guard_agrees, outstanding. intros Hinv.
  destruct ev as [chat_input|i post| |uri_text|text_item|get]; simpl.
  - intros [= <-]. destruct (is_llm_running a) eqn:Hrun.
    + rewrite send_message_busy by done. simpl. by rewrite Hrun.
    + destruct (decide (Text.strip chat_input = "")) as [Hb|Hb].
      * rewrite send_message_blank by done. simpl. by rewrite Hrun.
      * rewrite send_message_accepted by done. simpl.
        rewrite length_app. simpl. lia.
  - destruct (threads a !! i) as [t|] eqn:Ht; [|done]. simpl.
    intros [= <-]. simpl. rewrite length_app, length_delete by eauto.
    apply lookup_lt_Some in Ht. simpl. lia.
  - destruct (clock a) as [|llm_resp rest] eqn:Hc; [done|].
    destruct (ollama_callback _ _) as [a1|] eqn:Hcb; [|done].
    intros [= <-].
    apply ollama_callback_ok in Hcb as (role & _ & _ & -> & -> & ->).
    simpl in *. destruct (is_llm_running a); lia.
  - intros [= <-]. unfold go_to_chatbot.
    by destruct (negb _).
  - by intros [= <-].
  - intros [= <-]. unfold update_chatbot_welcome.
    destruct (negb _); [|done].
    by destruct (ollamaApi.get_llm_models _ _).
Qed.

Lemma reachable_guard_agrees a : reachable a → guard_agrees a.
Proof.
  induction 1 as [|a ev a' _ IH Hstep]; [done|].
  by apply (guard_agrees_step a ev a').
Qed.

Lemma slice_last_three_snoc {A} (l : list A) x :
  last (Py.slice_from (-3) (l ++ [x])) = Some x.
Proof.
  rewrite slice_last_three, length_app. simpl.
  rewrite drop_app_le by lia. apply last_snoc.
Qed.

(** C1: a chat send appends the user message and starts one request.
    What that request hands to [requests.post] is the chat address of the
    stored server and a body whose [messages] field holds the last three
    entries of the transcript, in order, or the whole transcript when it
    has fewer than three: a server that echoes what it was sent shows
    exactly that address and that body, both in the result of
    [chat_with_llm] and in what the worker thread schedules for the main
    thread. The answer to that one post is all the call takes from the
    network. *)
Theorem send_chat_last_three chat_input a :
  is_llm_running a = false → Text.strip chat_input ≠ "" →
  let a' := (send_message chat_input a).1 in
  let transcript := messages a' in
  let sent := drop (length transcript - 3) transcript in
  let sent_url := ollama_uri a +:+ "/api/chat" in
  let sent_body := JObj [("model", JStr (selected_llm a));
                         ("messages", JArr sent);
                         ("stream", JBool false)] in
  transcript = messages a ++ [message "user" (Text.strip chat_input)]
  ∧ (length transcript < 3 → sent = transcript)
  ∧ (3 ≤ length transcript → length sent = 3)
  ∧ ∃ t,
      threads a' = threads a ++ [t]
      ∧ th_messages t = sent
      ∧ (∀ f,
           ollamaApi.chat_response (observe f)
             (th_url t) (th_model t) (th_messages t)
           = f sent_url sent_body)
      ∧ (∀ f, ∃ a'',
           handle (ThreadRuns (length (threads a)) (observe f)) a' = Some a''
           ∧ clock a'' = clock a ++ [f sent_url sent_body]
           ∧ threads a'' = threads a)
      ∧ (∀ post post',
           post sent_url sent_body = post' sent_url sent_body →
           ollamaApi.chat_response post
             (th_url t) (th_model t) (th_messages t)
           = ollamaApi.chat_response post'
               (th_url t) (th_model t) (th_messages t)).
Proof.
  intros Hrun Htext. rewrite send_message_accepted by done. simpl.
  rewrite slice_last_three.
  split; [done|]. split.
  { intros Hlen. by replace (_ - 3) with 0 by lia. }
  split.
  { intros Hlen. rewrite length_drop. lia. }
  eexists. split; [done|]. simpl. split_and!.
  - done.
  - intros f. unfold ollamaApi.chat_response, observe. simpl.
    done.
  - intros f. eexists. rewrite list_lookup_middle by done. simpl.
    unfold ollamaApi.chat_response, observe. simpl.
    split; [done|]. simpl. split; [done|]. by rewrite delete_middle, app_nil_r.
  - intros post post' Hpost. unfold ollamaApi.chat_response.
    unfold ollamaApi.chat_url, ollamaApi.msg_body. by rewrite Hpost.
Qed.

(** The tenth message of a session, sent to a server that echoes the
    messages it receives: it receives the last three. *)
Lemma send_chat_last_three_witness :
  ∃ t,
    threads (send_message "10" nine).1 = [t]
    ∧ th_messages t
      = [message "user" "8"; message "user" "9"; message "user" "10"]
    ∧ ollamaApi.chat_response (observe (λ _ msg_body, msg_body))
        (th_url t) (th_model t) (th_messages t)
      = JObj [("model", JStr "");
              ("messages", JArr [message "user" "8"; message "user" "9";
                                 message "user" "10"]);
              ("stream", JBool false)].
Proof.
  destruct (send_chat_last_three "10" nine eq_refl ltac:(by vm_compute))
    as (_ & _ & _ & t & Ht & Hm & Hf & _).
  exists t. split; [exact Ht|]. split; [exact Hm|].
  exact (Hf (λ _ msg_body, msg_body)).
Defined.



(** C8, as the code has it: every step leaves the transcript as it was or
    appends one message to it. An accepted send appends the user message,
    and the request it starts already carries that message as its last
    one. The callback appends the delivered message when its role is
    [assistant] and only then; no other handler touches the transcript. *)
Theorem transcript_append_only a ev a' :
  handle ev a = Some a' →
  match ev with
  | SendMessage chat_input =>
      if is_llm_running a || String.eqb (Text.strip chat_input) ""
      then messages a' = messages a ∧ threads a' = threads a
      else
        messages a' = messages a ++ [message "user" (Text.strip chat_input)]
        ∧ ∃ t, threads a' = threads a ++ [t]
               ∧ last (th_messages t)
                 = Some (message "user" (Text.strip chat_input))
  | ClockTick =>
      ∃ llm_resp role,
        head (clock a) = Some llm_resp
        ∧ Py.getitem llm_resp "role" = Ok role
        ∧ messages a'
          = (if Py.eq_str role "assistant" then messages a ++ [llm_resp]
             else messages a)
  | _ => messages a' = messages a
  end.
Proof.
  destruct ev as [chat_input|i post| |uri_text|text_item|get]; simpl.
  - intros [= <-]. destruct (is_llm_running a) eqn:Hrun; simpl.
    + by rewrite send_message_busy.
    + destruct (String.eqb_spec (Text.strip chat_input) "") as [Hb|Hb].
      * by rewrite send_message_blank.
      * rewrite send_message_accepted by done. simpl. split; [done|].
        eexists. split; [done|]. simpl. apply slice_last_three_snoc.
  - destruct (threads a !! i) as [t|]; [|done]. simpl. by intros [= <-].
  - destruct (clock a) as [|llm_resp rest]; [done|].
    destruct (ollama_callback _ _) as [a1|] eqn:Hcb; [|done].
    intros [= <-].
    apply ollama_callback_ok in Hcb as (role & Hrole & Hm & _).
    by exists llm_resp, role.
  - intros [= <-]. unfold go_to_chatbot. by destruct (negb _).
  - by intros [= <-].
  - intros [= <-]. unfold update_chatbot_welcome.
    destruct (negb _); [|done].
    by destruct (ollamaApi.get_llm_models _ _).
Qed.

(** An assistant reply is delivered and appended. *)
Lemma transcript_append_only_witness :
  messages <$> handle ClockTick
                 (set_clock [message "assistant" "hello"]
                    (send_message "hi" init).1)
  = Some [message "user" "hi"; message "assistant" "hello"].
Proof.
  destruct (transcript_append_only
              (set_clock [message "assistant" "hello"]
                 (send_message "hi" init).1)
              ClockTick _ eq_refl)
    as (llm_resp & role & Hhd & Hrole & Hm).
  reflexivity.
Defined.

(** C8 as stated fails: a refused connection is delivered as an error
    result, which is shown in the chat history and is not appended to the
    transcript. *)
Lemma error_result_not_appended_counterexample :
  messages <$> run [SendMessage "hi"; ThreadRuns 0 refuses; ClockTick] init
  = Some [message "user" "hi"]
  ∧ (a ← run [SendMessage "hi"; ThreadRuns 0 refuses; ClockTick] init;
     last (chat_history a))
    = Some (BotDocument
              ("**Bot:** "
               +:+ String "010" "**Error** with Ollama: refused")).
Proof. split; reflexivity. Qed.

End Session.


(** ** The response sanitizer *)

Section Sanitizer.
Import main Spec.

(** What the pattern of [strip_think] does at one position. *)
Lemma think_match_at s :
  Re.match_at think_flags think_re s
  = if Text.startswith ci "<THINK>" s
    then Re.lazy_dots (Re.dot think_flags)
           (Re.run think_flags (Re.Str "</THINK>") Some) (Text.drop 7 s)
    else None.
Proof. reflexivity. Qed.

Lemma think_close_at t :
  Re.run think_flags (Re.Str "</THINK>") Some t
  = if Text.startswith ci "</THINK>" t then Some (Text.drop 8 t) else None.
Proof. reflexivity. Qed.

Lemma think_dot_all b : Text.all (Re.dot think_flags) b = true.
Proof. induction b as [|c b IH]; [done|]. simpl. by rewrite IH. Qed.

Lemma think_match_sound s y :
  Re.match_at think_flags think_re s = Some y →
  ∃ o body c,
    s = o +:+ body +:+ c +:+ y ∧ is_open o = true ∧ is_close c = true.
Proof.
  rewrite think_match_at.
  destruct (Text.startswith ci "<THINK>" s) eqn:Ho; [|done].
  apply TextFacts.startswith_split in Ho as (o & t & -> & Ho).
  pose proof (TextFacts.eq_by_length _ _ _ Ho) as Hlen. simpl in Hlen.
  rewrite <-Hlen, TextFacts.drop_app_length.
  intros (body & t' & -> & Hc & _)%ReFacts.lazy_dots_split.
  rewrite think_close_at in Hc.
  destruct (Text.startswith ci "</THINK>" t') eqn:Hc'; [|done].
  apply TextFacts.startswith_split in Hc' as (c & u & -> & Hc').
  pose proof (TextFacts.eq_by_length _ _ _ Hc') as Hlen'. simpl in Hlen'.
  rewrite <-Hlen', TextFacts.drop_app_length in Hc. injection Hc as ->.
  by exists o, body, c.
Qed.

Lemma think_match_nonempty s y :
  Re.match_at think_flags think_re s = Some y →
  String.length y < String.length s.
Proof.
  intros (o & body & c & -> & Ho & Hc)%think_match_sound.
  apply TextFacts.eq_by_length in Ho. simpl in Ho.
  rewrite !TextFacts.app_length. lia.
Qed.

(** A block that begins here is matched up to its first closing
    delimiter. *)
Lemma think_match_block o body c rest :
  is_open o = true → is_close c = true →
  (∀ j, j < String.length body → begins "</THINK>" j (body +:+ c) = false) →
  Re.match_at think_flags think_re (o +:+ body +:+ c +:+ rest) = Some rest.
Proof.
  intros Ho Hc Hbody. rewrite think_match_at.
  rewrite (TextFacts.startswith_app _ _ _ _ Ho).
  pose proof (TextFacts.eq_by_length _ _ _ Ho) as Hlo. simpl in Hlo.
  pose proof (TextFacts.eq_by_length _ _ _ Hc) as Hlc. simpl in Hlc.
  rewrite <-Hlo, TextFacts.drop_app_length.
  rewrite ReFacts.lazy_dots_skip.
  - apply ReFacts.lazy_dots_hit. rewrite think_close_at.
    rewrite (TextFacts.startswith_app _ _ _ _ Hc).
    by rewrite <-Hlc, TextFacts.drop_app_length.
  - apply think_dot_all.
  - intros j Hj. rewrite think_close_at.
    rewrite TextFacts.startswith_drop_app by (simpl; lia).
    unfold begins in Hbody. by rewrite Hbody.
Qed.

Lemma think_match_some o body c post :
  is_open o = true → is_close c = true →
  is_Some (Re.match_at think_flags think_re (o +:+ body +:+ c +:+ post)).
Proof.
  intros Ho Hc. rewrite think_match_at.
  rewrite (TextFacts.startswith_app _ _ _ _ Ho).
  pose proof (TextFacts.eq_by_length _ _ _ Ho) as Hlo. simpl in Hlo.
  pose proof (TextFacts.eq_by_length _ _ _ Hc) as Hlc. simpl in Hlc.
  rewrite <-Hlo, TextFacts.drop_app_length.
  apply (ReFacts.lazy_dots_complete _ _ _ _ post); [apply think_dot_all|].
  rewrite think_close_at, (TextFacts.startswith_app _ _ _ _ Hc).
  by rewrite <-Hlc, TextFacts.drop_app_length.
Qed.

Lemma strip_think_no_block s : ¬ HasBlock s → strip_think s = s.
Proof.
  unfold strip_think. induction s as [|a s IH]; intros Hno; [done|].
  destruct (Re.match_at think_flags think_re (String a s)) as [y|] eqn:E.
  - destruct Hno. apply think_match_sound in E as (o & body & c & E & Ho & Hc).
    by exists "", o, body, c, y.
  - rewrite ReFacts.sub_del_nomatch by done. f_equal. apply IH.
    intros (pre & o & body & c & post & -> & Ho & Hc). apply Hno.
    by exists (String a pre), o, body, c, post.
Qed.

Lemma strip_think_shrinks s :
  HasBlock s → String.length (strip_think s) < String.length s.
Proof.
  intros (pre & o & body & c & post & -> & Ho & Hc).
  destruct (think_match_some o body c post Ho Hc) as [y Hy].
  apply (ReFacts.sub_del_shrinks _ _ _ _ y); [|done].
  apply think_match_nonempty.
Qed.

(** C7, as the code has it. One pass from left to right: the first block,
    from its opening delimiter to the nearest closing one, is removed with
    its delimiters and the pass goes on after it; delimiters match in any
    letter case and a block may span lines. A text that holds no block is
    returned unchanged. A second application changes nothing exactly when
    the first result holds no block. *)
Theorem strip_think_one_pass :
  (∀ pre o body c rest,
     is_open o = true → is_close c = true →
     (∀ i, i < String.length pre → begins "<THINK>" i (pre +:+ o) = false) →
     (∀ j, j < String.length body → begins "</THINK>" j (body +:+ c) = false) →
     strip_think (pre +:+ o +:+ body +:+ c +:+ rest)
     = pre +:+ strip_think rest)
  ∧ (∀ s, ¬ HasBlock s → strip_think s = s)
  ∧ (∀ s, strip_think (strip_think s) = strip_think s
          ↔ ¬ HasBlock (strip_think s))
  ∧ strip_think "A<THINK>secret</THINK>B" = "AB"
  ∧ strip_think ("a<think>x" +:+ String "010" "y</Think>b") = "ab".
Proof.
  split_and!; [| |split| |]; try done.
  - intros pre o body c rest Ho Hc Hpre Hbody. unfold strip_think.
    pose proof (TextFacts.eq_by_length _ _ _ Ho) as Hlo. simpl in Hlo.
    rewrite ReFacts.sub_del_plain.
    + f_equal.
      rewrite <-(TextFacts.app_assoc body), <-(TextFacts.app_assoc o).
      apply ReFacts.sub_del_match.
      * intros E. apply (f_equal String.length) in E.
        rewrite TextFacts.app_length in E. simpl in E. lia.
      * rewrite !TextFacts.app_assoc. by apply think_match_block.
    + intros i Hi. rewrite think_match_at.
      rewrite TextFacts.startswith_drop_app by (simpl; lia).
      unfold begins in Hpre. by rewrite Hpre.
  - apply strip_think_no_block.
  - intros Heq Hblock. apply strip_think_shrinks in Hblock.
    rewrite Heq in Hblock. lia.
  - apply strip_think_no_block.
Qed.

(** C7 as stated fails: removing a block can join the text on either side
    of it into a new block, which a second application removes. *)
Lemma strip_think_twice_counterexample :
  strip_think "<THI<THINK>x</THINK>NK>y</THINK>" = "<THINK>y</THINK>"
  ∧ strip_think (strip_think "<THI<THINK>x</THINK>NK>y</THINK>") = ""
  ∧ strip_think (strip_think "<THI<THINK>x</THINK>NK>y</THINK>")
    ≠ strip_think "<THI<THINK>x</THINK>NK>y</THINK>".
Proof. split_and!; [reflexivity|reflexivity|by vm_compute]. Qed.

End Sanitizer.


(** ** Markup stripping *)

Section Markup.
Import main Spec.

Lemma run_alt_strs k x y w ws :
  (∀ w', w' ∈ w :: ws → Text.startswith Ascii.eqb w' x = true →
         k (Text.drop (String.length w') x) = Some y) →
  (∃ w', w' ∈ w :: ws ∧ Text.startswith Ascii.eqb w' x = true) →
  Re.run markup_flags (Re.alt_strs w ws) k x = Some y.
Proof.
  revert w; induction ws as [|w1 ws IH]; intros w Hall Hex; simpl.
  - destruct Hex as (w' & ->%list_elem_of_singleton & Hw).
    change (Re.chr_eq markup_flags) with Ascii.eqb. rewrite Hw.
    apply Hall; [left|done].
  - change (Re.chr_eq markup_flags) with Ascii.eqb.
    destruct (Text.startswith Ascii.eqb w x) eqn:Hw.
    + rewrite (Hall w); [done|left|done].
    + apply IH.
      * intros w' Hin. apply Hall. by right.
      * destruct Hex as (w' & [->|Hin]%elem_of_cons & Hw');
          [congruence|eauto].
Qed.

(** The names hold no closing bracket, no line break and no slash. *)
Lemma tag_names_clean w :
  w ∈ tag_names →
  Text.all in_tag w = true
  ∧ ∀ y, Text.startswith Ascii.eqb "/" (w +:+ y) = false.
Proof.
  revert w. apply Forall_forall. unfold tag_names.
  repeat constructor.
Qed.

(** A name that is a prefix of [a]] lies inside [a] when neither holds a
    closing bracket. *)
Lemma prefix_in_tag w a y :
  Text.all in_tag w = true → Text.all in_tag a = true →
  Text.startswith Ascii.eqb w (a +:+ "]" +:+ y) = true →
  ∃ v, Text.drop (String.length w) (a +:+ "]" +:+ y) = v +:+ "]" +:+ y
       ∧ Text.all in_tag v = true.
Proof.
  revert a; induction w as [|c w IH]; intros a Hw Ha Hpre.
  - by exists a.
  - simpl in Hw. apply andb_true_iff in Hw as [Hc Hw].
    destruct a as [|d a].
    + simpl in Hpre. apply andb_true_iff in Hpre as [Hcd _].
      apply Ascii.eqb_eq in Hcd as ->. done.
    + simpl in Ha. apply andb_true_iff in Ha as [_ Ha].
      rewrite TextFacts.app_cons in *. simpl in Hpre.
      apply andb_true_iff in Hpre as [_ Hpre]. simpl. by apply IH.
Qed.

(** After the name: the rest of the tag up to its closing bracket. *)
Lemma markup_tail v y :
  Text.all in_tag v = true →
  Re.run markup_flags (Re.Cat Re.LazyDots (Re.Str "]")) Some (v +:+ "]" +:+ y)
  = Some y.
Proof.
  intros Hv. simpl. rewrite ReFacts.lazy_dots_skip.
  - by apply ReFacts.lazy_dots_hit.
  - revert Hv. apply ReFacts.all_impl. intros c. unfold in_tag, Re.dot.
    simpl. by intros [_ ->]%andb_true_iff.
  - intros i Hi.
    destruct (ReFacts.all_drop _ _ ("]" +:+ y) _ Hv Hi) as (c & u & -> & Hc).
    simpl. unfold in_tag in Hc. apply andb_true_iff in Hc as [Hc _].
    change (Re.chr_eq markup_flags "]" c) with (Ascii.eqb "]" c).
    rewrite Ascii.eqb_sym. by destruct (Ascii.eqb c "]").
Qed.

Lemma markup_match_tag closing name attr y :
  name ∈ tag_names → Text.all in_tag attr = true →
  Re.match_at markup_flags markup_re (render (Tag closing name attr) +:+ y)
  = Some y.
Proof.
  intros Hname Hattr.
  destruct (tag_names_clean _ Hname) as [Hclean Hslash].
  assert (Re.run markup_flags
            (Re.Cat (Re.alt_strs "color" (tail tag_names))
               (Re.Cat Re.LazyDots (Re.Str "]")))
            Some (name +:+ attr +:+ "]" +:+ y) = Some y) as Hrest.
  { rewrite ReFacts.run_cat. apply run_alt_strs.
    - intros w' Hw' Hpre. destruct (tag_names_clean _ Hw') as [Hw'c _].
      rewrite <-(TextFacts.app_assoc name) in Hpre |- *.
      destruct (prefix_in_tag w' (name +:+ attr) y) as (v & -> & Hv);
        [done| |done|by apply markup_tail].
      by rewrite ReFacts.all_app, Hclean, Hattr.
    - exists name. split; [done|].
      apply TextFacts.startswith_app, TextFacts.eq_by_eqb. done. }
  unfold render. rewrite !TextFacts.app_assoc.
  unfold Re.match_at, markup_re.
  rewrite ReFacts.run_cat, ReFacts.run_str.
  rewrite (TextFacts.startswith_app _ "[" "[") by done.
  rewrite TextFacts.drop_app_length.
  rewrite ReFacts.run_cat, ReFacts.run_opt, ReFacts.run_str.
  destruct closing.
  - rewrite (TextFacts.startswith_app _ "/" "/") by done.
    rewrite TextFacts.drop_app_length. by rewrite Hrest.
  - rewrite TextFacts.app_nil_l.
    change (Re.chr_eq markup_flags) with Ascii.eqb.
    by rewrite Hslash.
Qed.

Lemma label_copy_plain text y :
  Text.all no_bracket text = true →
  label_copy (text +:+ y) = text +:+ label_copy y.
Proof.
  intros Ht. unfold label_copy. apply ReFacts.sub_del_plain. intros i Hi.
  destruct (ReFacts.all_drop _ _ y _ Ht Hi) as (c & u & -> & Hc).
  unfold no_bracket in Hc. unfold Re.match_at. simpl.
  change (Re.chr_eq markup_flags "[" c) with (Ascii.eqb "[" c).
  rewrite Ascii.eqb_sym. by destruct (Ascii.eqb c "[").
Qed.

Lemma label_copy_tag closing name attr y :
  name ∈ tag_names → Text.all in_tag attr = true →
  label_copy (render (Tag closing name attr) +:+ y) = label_copy y.
Proof.
  intros Hname Hattr. unfold label_copy. apply ReFacts.sub_del_match.
  - by destruct closing.
  - by apply markup_match_tag.
Qed.

(** Where the pattern does what the comment of [label_copy] says: in a
    text made of listed tags, opening or closing, with or without an
    attribute, and of plain stretches that hold no opening bracket, every
    tag is removed and the plain text is left as it is. The text of the
    specification gives Hello World. The function is total and its result
    is never longer than the input. *)
Lemma label_copy_strips_tags :
  (∀ pieces,
     Forall well_formed pieces →
     label_copy (join (render <$> pieces)) = join (plain <$> pieces))
  ∧ label_copy "[b]Hello[/b] [color=#fff]World[/color]" = "Hello World"
  ∧ (∀ s, String.length (label_copy s) ≤ String.length s).
Proof.
  split_and!; [|reflexivity|intros s; apply ReFacts.sub_del_length].
  intros pieces Hwf. induction Hwf as [|p ps Hp _ IH]; [done|].
  change (join (render <$> p :: ps))
    with (render p +:+ join (render <$> ps)).
  change (join (plain <$> p :: ps)) with (plain p +:+ join (plain <$> ps)).
  destruct p as [text|closing name attr]; simpl in Hp.
  - rewrite label_copy_plain by done. by rewrite IH.
  - destruct Hp as [Hname Hattr]. rewrite label_copy_tag by done.
    by rewrite IH.
Qed.

(** C10 fails in the code. The pattern ends a tag name with nothing, so a
    bracketed word that merely begins with a listed name, here sic, which
    begins with s and is no listed tag, is removed as if it were a tag:
    the text between the two tags b is x[sic]y, and what is copied is xy.
    A bracketed text that begins with no listed name is kept. *)
Theorem label_copy_removes_bracketed_word :
  render (Tag false "b" "") +:+ "x[sic]y" +:+ render (Tag true "b" "")
  = "[b]x[sic]y[/b]"
  ∧ ("sic" ∉ tag_names)
  ∧ label_copy "[b]x[sic]y[/b]" = "xy"
  ∧ label_copy "[b]x[sic]y[/b]" ≠ "x[sic]y"
  ∧ label_copy "[b]a[0][/b]" = "a[0]".
Proof.
  split_and!; [reflexivity| |reflexivity|by vm_compute|reflexivity].
  unfold tag_names. rewrite !not_elem_of_cons.
  split_and!; try done. apply not_elem_of_nil.
Qed.

End Markup.


(** ** More on the adapter: every reply, not only the expected ones *)

Section AdapterEdges.
Import ollamaApi Spec.

(** The result of [get_llm_models] is empty or the filtered names of the
    leading well-formed entries of some list. *)
Lemma get_llm_models_shape get url :
  get_llm_models get url = []
  ∨ ∃ models,
      get_llm_models get url
      = filter (λ n, ¬ Text.Substring "embed" n) (named_prefix models).
Proof.
  unfold get_llm_models.
  destruct (get (url +:+ "/api/tags")) as [r|e]; [|by left]. simpl.
  destruct (requests.raise_for_status r); [|by left]. simpl.
  destruct (requests.json r) as [models_data|e]; [|by left]. simpl.
  destruct (Py.get_default models_data "models" (JArr [])) as [v|e];
    [|by left]. simpl.
  destruct (Py.iter v) as [models|e]; [|by left].
  right. exists models. rewrite <-collect_result.
  by destruct (collect [] models) as [got []].
Qed.

(** A loop over [str] objects stops at the first one: a [str] cannot be
    indexed by a key. *)
Lemma collect_strs (l : list json) :
  Forall (λ x, ∃ s, x = JStr s) l → (collect [] l).1 = [].
Proof. intros H. by destruct H as [|x l [s ->] _]. Qed.

(** X1: when the chat reply decodes to an object with a [message] field,
    [chat_with_llm] hands over the value of that field as it is, in either
    delivery mode. The status code of the reply plays no part: a reply
    with status 500 and such a body counts as a success. *)
Theorem chat_message_passed_through {C} post url model messages
    (callback : option C) r fields m :
  post (chat_url url) (msg_body model messages) = Ok r →
  requests.json r = Ok (JObj fields) →
  Py.lookup "message" fields = Some m →
  chat_with_llm post url model messages callback = delivered callback m.
Proof.
  intros Hpost Hjs Hm. unfold chat_with_llm, chat_response.
  rewrite Hpost. simpl. rewrite Hjs. simpl. rewrite Hm.
  by rewrite bool_decide_eq_true_2 by eauto.
Qed.

(** A reply with status 500 whose body carries a message. *)
Lemma chat_message_passed_through_witness :
  chat_with_llm
    (λ _ _, Ok {| requests.url := "http://localhost:11434/api/chat";
                  requests.status_code := 500;
                  requests.reason := "Internal Server Error";
                  requests.json :=
                    Ok (JObj [("message", message "assistant" "hello")]) |})
    "http://localhost:11434" "llama3" [message "user" "hi"] (None : option ())
  = Returned (message "assistant" "hello").
Proof.
  exact (chat_message_passed_through
           (λ _ _, Ok {| requests.url := "http://localhost:11434/api/chat";
                         requests.status_code := 500;
                         requests.reason := "Internal Server Error";
                         requests.json :=
                           Ok (JObj [("message",
                                      message "assistant" "hello")]) |})
           "http://localhost:11434" "llama3" [message "user" "hi"] None
           _ _ _ eq_refl eq_refl eq_refl).
Defined.

(** X2: whatever the network does, the result of a chat request is
    either the [message] field of a reply that decoded to an object, or a
    message of role [error] whose content begins with the error marker.
    The placeholder the function starts with is never the result of its
    own. *)
Theorem chat_result_shape post url model messages :
  (∃ r fields,
     post (chat_url url) (msg_body model messages) = Ok r
     ∧ requests.json r = Ok (JObj fields)
     ∧ Py.lookup "message" fields
       = Some (chat_response post url model messages))
  ∨ (∃ detail,
       chat_response post url model messages
       = message "error" ("**Error** " +:+ detail)).
Proof.
  assert (∀ text, ∃ detail,
            message "error" ("**Error** with Ollama: " +:+ text)
            = message "error" ("**Error** " +:+ detail)) as Hcaught.
  { intros text. by exists ("with Ollama: " +:+ text). }
  assert (∃ detail,
            message "error" "**Error** in LLM response!"
            = message "error" ("**Error** " +:+ detail)) as Hshape.
  { by exists "in LLM response!". }
  unfold chat_response.
  destruct (post (chat_url url) (msg_body model messages)) as [r|e] eqn:Hp;
    simpl; [|right; apply Hcaught].
  destruct (requests.json r) as [v|e] eqn:Hj; simpl; [|right; apply Hcaught].
  destruct v as [|b|n|lit|s|xs|fields]; simpl;
    try (right; apply Hcaught).
  - destruct (negb _); simpl; right; [apply Hcaught|apply Hshape].
  - destruct (existsb _ xs); simpl; right; [apply Hcaught|apply Hshape].
  - destruct (Py.lookup "message" fields) as [m|] eqn:Hm.
    + rewrite bool_decide_eq_true_2 by eauto. simpl.
      left. by exists r, fields.
    + rewrite bool_decide_eq_false_2 by (by intros [? ?]).
      right. apply Hshape.
Qed.

Lemma list_models_head_not_embed get url n :
  n ∈ get_llm_models get url → ¬ Text.Substring "embed" n.
Proof.
  destruct (get_llm_models_shape get url) as [->|[models ->]].
  - by intros ?%elem_of_nil.
  - by intros [? _]%list_elem_of_filter.
Qed.

(** X3: no name that contains the substring [embed] is ever returned by
    [get_llm_models], whatever the server sends. *)
Theorem list_models_never_embed get url n :
  n ∈ get_llm_models get url → ¬ Text.Substring "embed" n.
Proof. apply list_models_head_not_embed. Qed.

Lemma list_models_never_embed_witness :
  "b" ∈ get_llm_models (λ _, Ok (tags_reply (named <$> ["a-embed"; "b"])))
          "http://localhost:11434"
  ∧ ¬ Text.Substring "embed" "b".
Proof.
  assert ("b" ∈ get_llm_models
                  (λ _, Ok (tags_reply (named <$> ["a-embed"; "b"])))
                  "http://localhost:11434") as Hin.
  { vm_compute. apply list_elem_of_singleton. reflexivity. }
  split; [exact Hin|].
  exact (list_models_never_embed _ _ _ Hin).
Defined.

(** X4: a reply whose body has no [models] array gives the empty list:
    a body that is not an object, an object without the key (the default
    of [dict.get]), and an object whose [models] is not a list. No status
    is assumed. *)
Theorem list_models_no_array get url r v :
  get (url +:+ "/api/tags") = Ok r →
  requests.json r = Ok v →
  (∀ fields entries,
     v = JObj fields → Py.lookup "models" fields ≠ Some (JArr entries)) →
  get_llm_models get url = [].
Proof.
  intros Hget Hjs Hno. unfold get_llm_models. rewrite Hget. simpl.
  destruct (requests.raise_for_status r); [|done]. simpl. rewrite Hjs. simpl.
  destruct v as [|b|n|lit|s|xs|fields]; try done. simpl.
  specialize (Hno fields).
  destruct (Py.lookup "models" fields) as [[|b|n|lit|s|xs|fs]|]; simpl;
    try done.
  - pose proof (collect_strs
                  ((λ c, JStr (String c "")) <$> list_ascii_of_string s)) as Hc.
    destruct (collect [] _) as [got []]; apply Hc;
      apply Forall_fmap, Forall_true; eauto.
  - by destruct (Hno xs).
  - pose proof (collect_strs ((λ kv, JStr kv.1) <$> fs)) as Hc.
    destruct (collect [] _) as [got []]; apply Hc;
      apply Forall_fmap, Forall_true; eauto.
Qed.

(** An object whose [models] is a string. *)
Lemma list_models_no_array_witness :
  get_llm_models
    (λ _, Ok {| requests.url := "http://localhost:11434/api/tags";
                requests.status_code := 200;
                requests.reason := "OK";
                requests.json := Ok (JObj [("models", JStr "llama3")]) |})
    "http://localhost:11434"
  = [].
Proof.
  refine (list_models_no_array
            (λ _, Ok {| requests.url := "http://localhost:11434/api/tags";
                        requests.status_code := 200;
                        requests.reason := "OK";
                        requests.json :=
                          Ok (JObj [("models", JStr "llama3")]) |})
            "http://localhost:11434" _
            (JObj [("models", JStr "llama3")]) eq_refl eq_refl _).
  intros fields entries [= <-]. discriminate.
Defined.

End AdapterEdges.


(** ** More on the session: what every reachable state satisfies *)

Section SessionInvariants.
Import main Spec.

Lemma lstrip_blank s : Text.all Text.isspace s = true → Text.lstrip s = "".
Proof.
  induction s as [|c s IH]; simpl; [done|].
  intros [-> Hs]%andb_true_iff. by apply IH.
Qed.

Lemma strip_blank s : Text.all Text.isspace s = true → Text.strip s = "".
Proof. intros H. unfold Text.strip. by rewrite lstrip_blank. Qed.

Lemma rstrip_empty s : Text.rstrip s = "" → Text.all Text.isspace s = true.
Proof.
  induction s as [|c s IH]; simpl; [done|].
  destruct (Text.rstrip s); [|done].
  destruct (Text.isspace c); [|done]. intros _. by apply IH.
Qed.

Lemma lstrip_all_space s :
  Text.all Text.isspace (Text.lstrip s) = true →
  Text.all Text.isspace s = true.
Proof.
  induction s as [|c s IH]; simpl; [done|].
  destruct (Text.isspace c) eqn:Hc; [|simpl; by rewrite Hc].
  intros H. by rewrite IH.
Qed.

Lemma strip_empty s : Text.strip s = "" ↔ Text.all Text.isspace s = true.
Proof.
  split; [|apply strip_blank].
  intros H. by apply lstrip_all_space, rstrip_empty.
Qed.

Lemma eq_str_true v lit : Py.eq_str v lit = true → v = JStr lit.
Proof.
  destruct v; simpl; try done. by intros ->%String.eqb_eq.
Qed.

(** The callback returns exactly for a deliverable result, and then the
    new state is this one. *)
Lemma ollama_callback_spec llm_resp a a' :
  ollama_callback llm_resp a = Ok a'
  ↔ ∃ role s,
      Py.getitem llm_resp "role" = Ok role
      ∧ Py.getitem llm_resp "content" = Ok (JStr s)
      ∧ a' = add_widget
               (BotDocument ("**Bot:** " +:+ String "010" (strip_think s)))
               (set_is_llm_running false
                  (remove_widget TempSpinWait
                     (if Py.eq_str role "assistant"
                      then messages_append llm_resp a else a))).
Proof.
  unfold ollama_callback. split.
  - destruct (Py.getitem llm_resp "role") as [role|]; [|done]. simpl.
    destruct (Py.getitem llm_resp "content") as [[| | | |s| |]|]; try done.
    simpl. intros [= <-]. by exists role, s.
  - intros (role & s & -> & -> & ->). done.
Qed.

Lemma spinners_present ws :
  0 < length (filter (λ w, w = TempSpinWait) ws) → TempSpinWait ∈ ws.
Proof.
  destruct (filter _ ws) as [|w l] eqn:E; simpl; [lia|]. intros _.
  assert (w ∈ filter (λ w, w = TempSpinWait) ws) as Hw by (rewrite E; left).
  by apply list_elem_of_filter in Hw as [-> ?].
Qed.

Lemma remove_last_count w ws :
  w ∈ ws →
  length (filter (λ x, x = w) (remove_last w ws))
  = pred (length (filter (λ x, x = w) ws)).
Proof.
  induction ws as [|x ws IH]; [by intros ?%elem_of_nil|]. intros Hin.
  simpl. rewrite filter_cons.
  destruct (decide (x = w)) as [->|Hx].
  - rewrite bool_decide_eq_true_2 by done. simpl.
    destruct (decide (w ∈ ws)) as [Hws|Hws].
    + rewrite bool_decide_eq_false_2 by tauto. rewrite filter_cons_True by done.
      simpl. rewrite IH by done.
      assert (w ∈ filter (λ x, x = w) ws) as Hf
        by (by apply list_elem_of_filter).
      destruct (filter _ ws); [by apply elem_of_nil in Hf|done].
    + rewrite bool_decide_eq_true_2 by done. simpl.
      destruct (filter (λ x, x = w) ws) as [|y l] eqn:E; [done|].
      assert (y ∈ filter (λ x, x = w) ws) as Hy by (rewrite E; left).
      by apply list_elem_of_filter in Hy as [-> ?].
  - rewrite bool_decide_eq_false_2 by done. simpl.
    rewrite filter_cons_False by done. apply IH.
    by apply elem_of_cons in Hin as [->|Hin].
Qed.

Lemma session_ok_step a ev a' :
  session_ok a → handle ev a = Some a' → session_ok a'.
Proof.
  intros (Huri & Hmsgs & Hthreads & Hspin) Hstep.
  unfold spinners, outstanding in Hspin.
  destruct ev as [chat_input|i post| |uri_text|text_item|get];
    simpl in Hstep.
  - injection Hstep as <-. destruct (is_llm_running a) eqn:Hrun.
    + by rewrite send_message_busy.
    + destruct (decide (Text.strip chat_input = "")) as [Hb|Hb].
      * by rewrite send_message_blank.
      * rewrite send_message_accepted by done.
        unfold session_ok, spinners, outstanding. simpl.
        assert (transcript_entry (message "user" (Text.strip chat_input)))
          as Hentry by (left; eauto).
        split_and!.
        -- done.
        -- apply Forall_app. split; [done|]. by constructor.
        -- apply Forall_app. split; [done|]. constructor; [|done].
           unfold request_ok. simpl. rewrite slice_last_three.
           split_and!.
           ++ done.
           ++ rewrite length_drop, length_app. simpl. lia.
           ++ rewrite length_drop, length_app. simpl. lia.
           ++ apply Forall_drop, Forall_app. split; [done|]. by constructor.
           ++ exists chat_input. rewrite <-slice_last_three.
              apply slice_last_three_snoc.
        -- rewrite !filter_app, !length_app. simpl. lia.
  - destruct (threads a !! i) as [t|] eqn:Ht; [|done]. simpl in Hstep.
    injection Hstep as <-. unfold session_ok, spinners, outstanding. simpl.
    split_and!; try done.
    + by apply Forall_delete.
    + rewrite length_app, length_delete by eauto.
      apply lookup_lt_Some in Ht. simpl. lia.
  - destruct (clock a) as [|llm_resp rest] eqn:Hc; [done|].
    destruct (ollama_callback _ _) as [a1|] eqn:Hcb; [|done].
    injection Hstep as <-.
    apply ollama_callback_spec in Hcb as (role & s & Hrole & Hcontent & ->).
    simpl in Hspin.
    assert (TempSpinWait ∈ chat_history a) as Hin
      by (apply spinners_present; lia).
    unfold session_ok, spinners, outstanding.
    destruct (Py.eq_str role "assistant") eqn:Hr; simpl.
    + apply eq_str_true in Hr as ->. split_and!; try done.
      * apply Forall_app. split; [done|]. constructor; [|done].
        right. eauto.
      * rewrite filter_app, length_app, remove_last_count by done.
        simpl. lia.
    + split_and!; try done.
      rewrite filter_app, length_app, remove_last_count by done. simpl. lia.
  - injection Hstep as <-. unfold go_to_chatbot.
    destruct (String.eqb_spec (Text.strip uri_text) ""); simpl; [done|].
    by split_and!.
  - by injection Hstep as <-.
  - injection Hstep as <-. unfold update_chatbot_welcome.
    destruct (negb _); [|done].
    destruct (ollamaApi.get_llm_models _ _);
      unfold session_ok, spinners, outstanding; simpl;
      (split_and!; try done);
      rewrite filter_app, length_app; simpl; lia.
Qed.

Lemma reachable_session_ok a : reachable a → session_ok a.
Proof.
  induction 1 as [|a ev a' _ IH Hstep].
  - by split_and!.
  - by apply (session_ok_step a ev a').
Qed.

Lemma reachable_run evs a a' :
  reachable a → run evs a = Some a' → reachable a'.
Proof.
  revert a; induction evs as [|ev evs IH]; intros a Ha; simpl.
  - by intros [= <-].
  - destruct (handle ev a) as [a1|] eqn:Hstep; [|done]. simpl.
    apply IH. by apply (reachable_step a ev a1).
Qed.

(** One step leaves the transcript as a prefix of the new one. *)
Lemma handle_messages_prefix a ev a' :
  handle ev a = Some a' → messages a `prefix_of` messages a'.
Proof.
  destruct ev as [chat_input|i post| |uri_text|text_item|get]; simpl.
  - intros [= <-]. unfold send_message.
    destruct (is_llm_running a); [done|].
    destruct (negb _); [|done]. simpl. by apply prefix_app_r.
  - destruct (threads a !! i); [|done]. simpl. by intros [= <-].
  - destruct (clock a) as [|llm_resp rest]; [done|].
    destruct (ollama_callback _ _) as [a1|] eqn:Hcb; [|done].
    intros [= <-].
    apply ollama_callback_spec in Hcb as (role & s & _ & _ & ->).
    destruct (Py.eq_str role "assistant"); simpl; [|done].
    by apply prefix_app_r.
  - intros [= <-]. unfold go_to_chatbot. by destruct (negb _).
  - by intros [= <-].
  - intros [= <-]. unfold update_chatbot_welcome.
    destruct (negb _); [|done].
    by destruct (ollamaApi.get_llm_models _ _).
Qed.

(** X5: the callback returns exactly when the delivered value has a role
    and a [str] content; a missing key or a content that is no string
    makes it raise. Every message of two strings, and so each error result
    of the adapter, is delivered. *)
Theorem callback_returns_iff_deliverable llm_resp a :
  ((∃ a', ollama_callback llm_resp a = Ok a') ↔ deliverable llm_resp)
  ∧ (∀ role content, deliverable (message role content)).
Proof.
  split.
  - split.
    + intros [a' (role & s & Hr & Hc & _)%ollama_callback_spec].
      by exists role, s.
    + intros (role & s & Hr & Hc). eexists.
      apply ollama_callback_spec. by exists role, s.
  - intros role content. by exists (JStr role), content.
Qed.

(** X6: an assistant reply enters the transcript as it was delivered,
    hidden-reasoning blocks included; only the text put on screen is
    sanitized. The guard is cleared and the callback leaves the queue. *)
Theorem reply_kept_raw_shown_sanitized a llm_resp rest s :
  clock a = llm_resp :: rest →
  Py.getitem llm_resp "role" = Ok (JStr "assistant") →
  Py.getitem llm_resp "content" = Ok (JStr s) →
  ∃ a',
    handle ClockTick a = Some a'
    ∧ messages a' = messages a ++ [llm_resp]
    ∧ last (chat_history a')
      = Some (BotDocument ("**Bot:** " +:+ String "010" (strip_think s)))
    ∧ clock a' = rest
    ∧ is_llm_running a' = false.
Proof.
  intros Hc Hrole Hcontent. simpl. rewrite Hc.
  destruct (ollama_callback llm_resp (set_clock rest a)) as [a1|e] eqn:Hcb.
  - apply ollama_callback_spec in Hcb as (role & s' & Hr & Hs & ->).
    rewrite Hrole in Hr. rewrite Hcontent in Hs.
    injection Hr as <-. injection Hs as <-.
    eexists. split; [done|]. simpl. split_and!; try done.
    apply last_snoc.
  - assert (∃ a', ollama_callback llm_resp (set_clock rest a) = Ok a')
      as [a' Ha']; [|congruence].
    eexists. apply ollama_callback_spec. by exists (JStr "assistant"), s.
Qed.

(** A reply that opens with a reasoning block. *)
Lemma reply_kept_raw_shown_sanitized_witness :
  ∃ a',
    handle ClockTick
      (set_clock [message "assistant" "<think>plan</think>Hello"]
         (send_message "hi" init).1)
    = Some a'
    ∧ messages a'
      = [message "user" "hi";
         message "assistant" "<think>plan</think>Hello"]
    ∧ last (chat_history a')
      = Some (BotDocument ("**Bot:** " +:+ String "010" "Hello"))
    ∧ clock a' = []
    ∧ is_llm_running a' = false.
Proof.
  exact (reply_kept_raw_shown_sanitized
           (set_clock [message "assistant" "<think>plan</think>Hello"]
              (send_message "hi" init).1)
           (message "assistant" "<think>plan</think>Hello") []
           "<think>plan</think>Hello" eq_refl eq_refl eq_refl).
Defined.

(** X7: a send whose request fails in the network does not wedge the
    session. From a reachable state with the guard clear and a non-blank
    input, the send, the worker thread and the callback run to the end:
    the guard is clear again, nothing is under way, the spinner is gone,
    the transcript has gained the user message only, and the text of the
    exception is on screen. *)
Theorem send_recovers_from_failure a chat_input post e :
  reachable a → is_llm_running a = false →
  Text.strip chat_input ≠ "" →
  (∀ u b, post u b = Raise e) →
  ∃ a',
    run [SendMessage chat_input; ThreadRuns 0 post; ClockTick] a = Some a'
    ∧ is_llm_running a' = false
    ∧ outstanding a' = 0
    ∧ spinners a' = 0
    ∧ messages a' = messages a ++ [message "user" (Text.strip chat_input)]
    ∧ last (chat_history a')
      = Some (BotDocument
                ("**Bot:** "
                 +:+ String "010"
                       (strip_think
                          ("**Error** with Ollama: " +:+ exn_text e)))).
Proof.
  intros Hreach Hrun Htext Hpost.
  pose proof (reachable_guard_agrees a Hreach) as Hg.
  unfold guard_agrees, outstanding in Hg. rewrite Hrun in Hg.
  assert (threads a = [] ∧ clock a = []) as [Ht Hc].
  { destruct (threads a), (clock a); simpl in Hg; try lia. done. }
  assert (∃ a', run [SendMessage chat_input; ThreadRuns 0 post; ClockTick] a
                = Some a'
                ∧ is_llm_running a' = false
                ∧ clock a' = [] ∧ threads a' = []
                ∧ messages a'
                  = messages a ++ [message "user" (Text.strip chat_input)]
                ∧ last (chat_history a')
                  = Some (BotDocument
                            ("**Bot:** "
                             +:+ String "010"
                                   (strip_think
                                      ("**Error** with Ollama: "
                                       +:+ exn_text e)))))
    as (a' & Hrun' & Hflag & Hc' & Ht' & Hm & Hh).
  { unfold run, handle. rewrite send_message_accepted by done.
    simpl. rewrite Ht, Hc. simpl.
    unfold ollamaApi.chat_with_llm, ollamaApi.chat_response.
    rewrite Hpost. simpl. eexists. split; [done|]. simpl.
    split_and!; try done. apply last_snoc. }
  exists a'. split_and!; try done.
  - unfold outstanding. by rewrite Ht', Hc'.
  - destruct (reachable_session_ok a' (reachable_run _ _ _ Hreach Hrun'))
      as (_ & _ & _ & ->).
    unfold outstanding. by rewrite Ht', Hc'.
Qed.

(** The first message of a session, the connection refused. *)
Lemma send_recovers_from_failure_witness :
  ∃ a',
    run [SendMessage "hi"; ThreadRuns 0 refuses; ClockTick] init = Some a'
    ∧ is_llm_running a' = false
    ∧ outstanding a' = 0
    ∧ spinners a' = 0
    ∧ messages a' = [message "user" "hi"]
    ∧ last (chat_history a')
      = Some (BotDocument
                ("**Bot:** "
                 +:+ String "010" "**Error** with Ollama: refused")).
Proof.
  exact (send_recovers_from_failure init "hi" refuses
           (Exn "ConnectionError" "refused") reachable_init eq_refl
           ltac:(by vm_compute) (λ _ _, eq_refl)).
Defined.

(** X8: in every reachable state the server address is not empty: it
    starts as the default and [go_to_chatbot] only stores a non-blank
    text. So [update_chatbot_welcome] always takes its first branch and
    adds the line with the address. *)
Theorem reachable_uri_not_empty a :
  reachable a →
  ollama_uri a ≠ ""
  ∧ ∀ get,
      chat_history (update_chatbot_welcome get a)
      = chat_history a
        ++ [InitLabel ("[color=#0000FF]Init:[/color] Your Ollama URI: "
                       +:+ ollama_uri a)].
Proof.
  intros (Huri & _)%reachable_session_ok. split; [done|].
  intros get. unfold update_chatbot_welcome.
  destruct (String.eqb_spec (ollama_uri a) ""); [done|]. simpl.
  by destruct (ollamaApi.get_llm_models _ _).
Qed.

(** After a blank address was submitted. *)
Lemma reachable_uri_not_empty_witness :
  ollama_uri (go_to_chatbot "  " init).1.1 = "http://localhost:11434"
  ∧ ollama_uri (go_to_chatbot "  " init).1.1 ≠ "".
Proof.
  split; [reflexivity|].
  exact (proj1 (reachable_uri_not_empty (go_to_chatbot "  " init).1.1
                  (reachable_step init (GoToChatbot "  ") _
                     reachable_init eq_refl))).
Defined.

(** X9: in every reachable state each entry of the transcript has a
    [str] role, which is user or assistant, and a [str] content; a user
    entry holds the stripped text of a non-blank input. No error result is
    in the transcript. *)
Theorem reachable_transcript_entries a :
  reachable a →
  Forall transcript_entry (messages a)
  ∧ (∀ m, m ∈ messages a →
          ∃ role content,
            Py.getitem m "role" = Ok (JStr role)
            ∧ (role = "user" ∨ role = "assistant")
            ∧ Py.getitem m "content" = Ok (JStr content))
  ∧ (∀ content, message "error" content ∉ messages a).
Proof.
  intros (_ & Hm & _)%reachable_session_ok. split; [done|].
  rewrite Forall_forall in Hm. split.
  - intros m [(chat_input & -> & _)|(Hr & s & Hs)]%Hm.
    + exists "user", (Text.strip chat_input). by split_and!; [|left|].
    + exists "assistant", s. by split_and!; [|right|].
  - intros content [(chat_input & [=] & _)|([=] & _)]%Hm.
Qed.

(** After a user message and an assistant reply. *)
Lemma reachable_transcript_entries_witness :
  Forall transcript_entry
    [message "user" "hi"; message "assistant" "hello"].
Proof.
  pose (evs := [SendMessage "hi";
                ThreadRuns 0
                  (λ _ _, Ok (chat_reply
                                (JObj [("message",
                                        message "assistant" "hello")])));
                ClockTick]).
  assert (run evs init = Some (default init (run evs init))) as Hrun
    by reflexivity.
  exact (proj1 (reachable_transcript_entries _
                  (reachable_run evs init _ reachable_init Hrun))).
Defined.

(** X10: in every reachable state the chat history shows one spinner
    while a request is under way and none otherwise. *)
Theorem spinner_while_waiting a :
  reachable a →
  spinners a = outstanding a
  ∧ spinners a = (if is_llm_running a then 1 else 0).
Proof.
  intros Hreach.
  destruct (reachable_session_ok a Hreach) as (_ & _ & _ & Hs).
  split; [done|]. rewrite Hs. by apply reachable_guard_agrees.
Qed.

Lemma spinner_while_waiting_witness :
  spinners (send_message "hi" init).1 = 1.
Proof.
  exact (proj2 (spinner_while_waiting (send_message "hi" init).1
                  (reachable_step init (SendMessage "hi") _
                     reachable_init eq_refl))).
Defined.

(** X11: in every reachable state each request a worker thread carries
    has a server address, and between one and three messages, all of them
    transcript entries, the last one a user message. *)
Theorem reachable_requests_ok a :
  reachable a → Forall request_ok (threads a).
Proof. by intros (_ & _ & Ht & _)%reachable_session_ok. Qed.

Lemma reachable_requests_ok_witness :
  Forall request_ok (threads (send_message "hi" init).1).
Proof.
  exact (reachable_requests_ok (send_message "hi" init).1
           (reachable_step init (SendMessage "hi") _ reachable_init eq_refl)).
Defined.

(** X12: over any sequence of events the transcript only grows at its
    end: the transcript before is a prefix of the transcript after. *)
Theorem run_transcript_prefix evs a a' :
  run evs a = Some a' → messages a `prefix_of` messages a'.
Proof.
  revert a; induction evs as [|ev evs IH]; intros a; simpl.
  - by intros [= <-].
  - destruct (handle ev a) as [a1|] eqn:Hstep; [|done]. simpl.
    intros Hrun. etrans; [by apply (handle_messages_prefix a ev a1)|].
    by apply IH.
Qed.

Lemma run_transcript_prefix_witness :
  [message "user" "1"; message "user" "2"]
  `prefix_of` [message "user" "1"; message "user" "2"; message "user" "hi"].
Proof.
  exact (run_transcript_prefix
           [GoToChatbot "http://box:11434"; SendMessage "hi"; SendMessage "x"]
           (set_messages [message "user" "1"; message "user" "2"] init)
           _ eq_refl).
Defined.

(** X13: a send starts a request exactly when the guard is clear and the
    input holds a character that is no whitespace. With the guard clear, an
    input of whitespace only shows the notice to type a message, and the
    state and the input text are otherwise as before. *)
Theorem send_accepted_iff a chat_input :
  (length (threads (send_message chat_input a).1) = S (length (threads a))
   ↔ is_llm_running a = false
     ∧ Text.all Text.isspace chat_input = false)
  ∧ (is_llm_running a = false →
     Text.all Text.isspace chat_input = true →
     send_message chat_input a
     = (show_toast_msg "Please type a message!" true a, chat_input)).
Proof.
  split.
  - destruct (is_llm_running a) eqn:Hrun.
    + rewrite send_message_busy by done. simpl. split; [lia|by intros []].
    + destruct (Text.all Text.isspace chat_input) eqn:Hb.
      * rewrite send_message_blank by (by try apply strip_blank).
        simpl. split; [lia|by intros []].
      * rewrite send_message_accepted; [|done|].
        -- simpl. rewrite length_app. simpl. split; [done|lia].
        -- intros Hs%strip_empty. congruence.
  - intros Hrun Hb. by apply send_message_blank, strip_blank.
Qed.

(** X14: when the listing fails, [update_chatbot_welcome] selects the
    model name None, and a send that follows is not held back: its request
    goes out with None as the model. *)
Theorem chat_after_failed_listing a get e chat_input :
  ollama_uri a ≠ "" →
  get (ollama_uri a +:+ "/api/tags") = Raise e →
  is_llm_running a = false →
  Text.strip chat_input ≠ "" →
  selected_llm (update_chatbot_welcome get a) = "None"
  ∧ ∃ t,
      threads (send_message chat_input (update_chatbot_welcome get a)).1
      = threads a ++ [t]
      ∧ th_model t = "None"
      ∧ th_url t = ollama_uri a.
Proof.
  intros Huri Hget Hrun Htext.
  assert (update_chatbot_welcome get a
          = add_widget
              (InitLabel ("[color=#0000FF]Init:[/color] Your Ollama URI: "
                          +:+ ollama_uri a))
              (set_selected_llm "None" a)) as ->.
  { unfold update_chatbot_welcome.
    destruct (String.eqb_spec (ollama_uri a) ""); [done|]. simpl.
    unfold ollamaApi.get_llm_models. by rewrite Hget. }
  split; [done|]. rewrite send_message_accepted by done. simpl. eauto.
Qed.

Lemma chat_after_failed_listing_witness :
  selected_llm
    (update_chatbot_welcome (λ _, Raise (Exn "ConnectionError" "refused"))
       init)
  = "None"
  ∧ ∃ t,
      threads (send_message "hi"
                 (update_chatbot_welcome
                    (λ _, Raise (Exn "ConnectionError" "refused")) init)).1
      = [t]
      ∧ th_model t = "None"
      ∧ th_url t = "http://localhost:11434".
Proof.
  exact (chat_after_failed_listing init
           (λ _, Raise (Exn "ConnectionError" "refused"))
           (Exn "ConnectionError" "refused") "hi"
           ltac:(done) eq_refl eq_refl ltac:(by vm_compute)).
Defined.

(** X15: the model [update_chatbot_welcome] selects is the first name
    [get_llm_models] returns, or None when it returns none; it never
    contains the substring [embed]. *)
Theorem welcome_selects_chat_model a get :
  ollama_uri a ≠ "" →
  ¬ Text.Substring "embed" (selected_llm (update_chatbot_welcome get a))
  ∧ selected_llm (update_chatbot_welcome get a)
    = default "None" (head (ollamaApi.get_llm_models get (ollama_uri a))).
Proof.
  intros Huri. unfold update_chatbot_welcome.
  destruct (String.eqb_spec (ollama_uri a) ""); [done|]. simpl.
  pose proof (list_models_head_not_embed get (ollama_uri a)) as Hhead.
  destruct (ollamaApi.get_llm_models get (ollama_uri a)) as [|m ms]; simpl.
  - split; [|done]. by apply TextFacts.find_none.
  - split; [|done]. apply Hhead. by left.
Qed.

Lemma welcome_selects_chat_model_witness :
  ¬ Text.Substring "embed"
      (selected_llm
         (update_chatbot_welcome
            (λ _, Ok (tags_reply (named <$> ["a-embed"; "b"]))) init))
  ∧ selected_llm
      (update_chatbot_welcome
         (λ _, Ok (tags_reply (named <$> ["a-embed"; "b"]))) init)
    = "b".
Proof.
  exact (welcome_selects_chat_model init
           (λ _, Ok (tags_reply (named <$> ["a-embed"; "b"])))
           ltac:(done)).
Defined.

(** X16: [go_to_chatbot] shows the chat screen in either case. With a
    blank text it shows the notice about the default address and leaves
    the stored address as it is, whether or not that is the default, and
    the text in the widget stays; with any other text it stores the
    stripped text, which is not empty, shows no notice and empties the
    widget. *)
Theorem go_to_chatbot_blank_keeps_uri a uri_text :
  (go_to_chatbot uri_text a).1.2 = "chatbot_screen"
  ∧ (Text.all Text.isspace uri_text = true →
     go_to_chatbot uri_text a
     = (show_toast_msg "Using default Ollama URL" false a,
        "chatbot_screen", uri_text)
     ∧ ollama_uri (go_to_chatbot uri_text a).1.1 = ollama_uri a)
  ∧ (Text.all Text.isspace uri_text = false →
     go_to_chatbot uri_text a
     = (set_ollama_uri (Text.strip uri_text) a, "chatbot_screen", "")
     ∧ Text.strip uri_text ≠ ""
     ∧ toasts (go_to_chatbot uri_text a).1.1 = toasts a).
Proof.
  unfold go_to_chatbot. split_and!.
  - by destruct (negb _).
  - intros Hb. by rewrite strip_blank.
  - intros Hb. destruct (String.eqb_spec (Text.strip uri_text) "") as [He|He].
    + apply strip_empty in He. congruence.
    + done.
Qed.

End SessionInvariants.


(** ** More on the sanitizer and on markup stripping *)

Section SanitizerEdges.
Import main Spec.

Lemma scan_sublist fl r n s :
  list_ascii_of_string (Re.scan fl r n s) `sublist_of` list_ascii_of_string s.
Proof.
  revert n; induction s as [|c s IH]; intros n; simpl; [done|].
  destruct n as [|n].
  - destruct (Re.match_len fl r (String c s)) as [[|m]|]; simpl.
    + by apply sublist_skip.
    + by apply sublist_cons.
    + by apply sublist_skip.
  - by apply sublist_cons.
Qed.

Lemma has_block_delimiters s :
  HasBlock s →
  (∃ i, begins "<THINK>" i s = true) ∧ (∃ j, begins "</THINK>" j s = true).
Proof.
  intros (pre & o & body & c & post & -> & Ho & Hc). unfold begins. split.
  - exists (String.length pre). rewrite TextFacts.drop_app_length.
    by apply TextFacts.startswith_app.
  - exists (String.length (pre +:+ o +:+ body)).
    replace (pre +:+ o +:+ body +:+ c +:+ post)
      with ((pre +:+ o +:+ body) +:+ c +:+ post)
      by (by rewrite !TextFacts.app_assoc).
    rewrite TextFacts.drop_app_length. by apply TextFacts.startswith_app.
Qed.

(** A match of the markup pattern ends with a closing bracket. *)
Lemma markup_match_sound s y :
  Re.match_at markup_flags markup_re s = Some y →
  ∃ u, s = u +:+ "]" +:+ y.
Proof.
  unfold Re.match_at, markup_re. rewrite ReFacts.run_cat.
  intros (u1 & t1 & -> & H1)%ReFacts.run_split.
  rewrite ReFacts.run_cat in H1.
  apply ReFacts.run_split in H1 as (u2 & t2 & -> & H2).
  rewrite ReFacts.run_cat in H2.
  apply ReFacts.run_split in H2 as (u3 & t3 & -> & H3).
  rewrite ReFacts.run_cat in H3.
  apply ReFacts.run_split in H3 as (u4 & t4 & -> & H4).
  rewrite ReFacts.run_str in H4.
  destruct (Text.startswith _ "]" t4) eqn:E; [|done].
  apply TextFacts.startswith_split in E as (o & t5 & -> & Ho).
  change (Re.chr_eq markup_flags) with Ascii.eqb in Ho.
  apply TextFacts.eq_by_eqb in Ho as <-.
  rewrite TextFacts.drop_app_length in H4. injection H4 as ->.
  exists (u1 +:+ u2 +:+ u3 +:+ u4). by rewrite !TextFacts.app_assoc.
Qed.

Lemma label_copy_no_close s :
  Text.all no_close s = true → label_copy s = s.
Proof.
  unfold label_copy. induction s as [|a s IH]; intros Hs; [done|].
  destruct (Re.match_at markup_flags markup_re (String a s)) as [y|] eqn:E.
  - apply markup_match_sound in E as [u E]. rewrite E in Hs.
    rewrite !ReFacts.all_app in Hs. simpl in Hs.
    by rewrite andb_false_r in Hs.
  - rewrite ReFacts.sub_del_nomatch by done. f_equal. apply IH.
    simpl in Hs. by apply andb_true_iff in Hs as [_ ?].
Qed.

(** X17: both text transformations only delete: the result of
    [strip_think] and the result of [label_copy] keep characters of the
    input in their order, and add or change none. *)
Theorem sanitizers_only_delete s :
  list_ascii_of_string (strip_think s) `sublist_of` list_ascii_of_string s
  ∧ list_ascii_of_string (label_copy s) `sublist_of` list_ascii_of_string s.
Proof. split; apply scan_sublist. Qed.

(** X18: a text in which no opening delimiter occurs, or no closing one,
    is returned by [strip_think] unchanged. So a reasoning block that is
    opened and never closed stays in the text that is shown. *)
Theorem strip_think_needs_both_delimiters s :
  (∀ i, begins "<THINK>" i s = false) ∨ (∀ j, begins "</THINK>" j s = false) →
  strip_think s = s.
Proof.
  intros H. apply strip_think_no_block.
  intros [[i Hi] [j Hj]]%has_block_delimiters.
  destruct H as [H|H]; congruence.
Qed.

Lemma text_drop_ge i s : String.length s ≤ i → Text.drop i s = "".
Proof.
  revert i; induction s as [|c s IH]; intros [|i]; simpl; try done; try lia.
  intros Hi. apply IH. lia.
Qed.

(** No delimiter begins at or after the end of the text. *)
Lemma begins_beyond p i s :
  p ≠ "" → String.length s ≤ i → begins p i s = false.
Proof.
  intros Hp Hi. unfold begins. rewrite text_drop_ge by done. by destruct p.
Qed.

(** A block that is opened and cut off. *)
Lemma strip_think_needs_both_delimiters_witness :
  strip_think "Sure. <think>the user wants" = "Sure. <think>the user wants".
Proof.
  apply (strip_think_needs_both_delimiters "Sure. <think>the user wants").
  right. intros j. destruct (decide (j < 28)) as [Hj|Hj].
  - do 28 (destruct j as [|j]; [reflexivity|]). lia.
  - apply begins_beyond; [done|simpl; lia].
Defined.

(** The side conditions of a listed tag: its name and its attribute. *)
Local Ltac tag_side :=
  first [reflexivity | unfold tag_names; repeat constructor].

(** X19: the marked-up labels the program builds lose exactly their
    markup under [label_copy]: the label of a sent user message copies as
    You: and the message, and the line added when the chat screen opens
    copies as its plain text, provided the message, respectively the
    server address, holds no opening bracket. *)
Theorem labels_copy_as_plain_text a :
  (∀ chat_input,
     is_llm_running a = false → Text.strip chat_input ≠ "" →
     Text.all no_bracket (Text.strip chat_input) = true →
     ∃ text,
       chat_history (send_message chat_input a).1
       = chat_history a ++ [UsrLabel text; TempSpinWait]
       ∧ label_copy text = "You: " +:+ Text.strip chat_input)
  ∧ (∀ get,
       ollama_uri a ≠ "" → Text.all no_bracket (ollama_uri a) = true →
       ∃ text,
         chat_history (update_chatbot_welcome get a)
         = chat_history a ++ [InitLabel text]
         ∧ label_copy text = "Init: Your Ollama URI: " +:+ ollama_uri a).
Proof.
  split.
  - intros chat_input Hrun Htext Hplain.
    rewrite send_message_accepted by done. simpl.
    eexists. split; [by rewrite <-app_assoc|].
    change ("[b][color=#2196F3]You:[/color][/b] " +:+ Text.strip chat_input)
      with (render (Tag false "b" "")
            +:+ render (Tag false "color" "=#2196F3")
            +:+ "You:"
            +:+ render (Tag true "color" "")
            +:+ render (Tag true "b" "")
            +:+ " " +:+ Text.strip chat_input).
    rewrite !label_copy_tag by tag_side.
    rewrite label_copy_plain by done.
    rewrite !label_copy_tag by tag_side.
    rewrite <-(TextFacts.app_nil_r (" " +:+ Text.strip chat_input)).
    rewrite label_copy_plain by (by rewrite ReFacts.all_app, Hplain).
    by rewrite !TextFacts.app_nil_r.
  - intros get Huri Hplain. unfold update_chatbot_welcome.
    destruct (String.eqb_spec (ollama_uri a) ""); [done|]. simpl.
    exists ("[color=#0000FF]Init:[/color] Your Ollama URI: " +:+ ollama_uri a).
    split; [by destruct (ollamaApi.get_llm_models _ _)|].
    change ("[color=#0000FF]Init:[/color] Your Ollama URI: " +:+ ollama_uri a)
      with (render (Tag false "color" "=#0000FF")
            +:+ "Init:"
            +:+ render (Tag true "color" "")
            +:+ " Your Ollama URI: " +:+ ollama_uri a).
    rewrite label_copy_tag by tag_side.
    rewrite label_copy_plain by done.
    rewrite label_copy_tag by tag_side.
    rewrite <-(TextFacts.app_nil_r (" Your Ollama URI: " +:+ ollama_uri a)).
    rewrite label_copy_plain by (by rewrite ReFacts.all_app, Hplain).
    by rewrite !TextFacts.app_nil_r.
Qed.

(** X20: a text with no opening bracket, or with no closing bracket, is
    copied by [label_copy] as it is. *)
Theorem label_copy_needs_brackets s :
  Text.all no_bracket s = true ∨ Text.all no_close s = true →
  label_copy s = s.
Proof.
  intros [H|H].
  - rewrite <-(TextFacts.app_nil_r s). rewrite label_copy_plain by done.
    by rewrite !TextFacts.app_nil_r.
  - by apply label_copy_no_close.
Qed.

Lemma label_copy_needs_brackets_witness :
  label_copy "see [b and [color" = "see [b and [color".
Proof.
  exact (label_copy_needs_brackets "see [b and [color" (or_intror eq_refl)).
Defined.

End SanitizerEdges.


(** ** The top menu and the update dialog *)

Section Menu.
Import menu Spec.

Lemma lookup_cons {A} key k (v : A) items :
  Py.lookup key ((k, v) :: items)
  = if String.eqb k key then Some v else Py.lookup key items.
Proof. reflexivity. Qed.

(** What the [try] block finds in the table of the program. *)
Lemma menu_action_init text_item sh :
  top_menu_items sh = top_menu_items init →
  menu_action text_item sh = ("", "")
  ∨ menu_action text_item sh = ("update", "")
  ∨ ∃ url, menu_action text_item sh = ("web", url)
           ∧ url ≠ "" ∧ url ∈ linked_pages.
Proof.
  intros Hitems. unfold menu_action. rewrite Hitems.
  cbn [top_menu_items init].
  rewrite lookup_cons. destruct (String.eqb "Demo" text_item).
  { right. right. eexists. split; [reflexivity|]. split; [done|].
    unfold linked_pages. repeat constructor. }
  rewrite lookup_cons. destruct (String.eqb "Documentation" text_item).
  { right. right. eexists. split; [reflexivity|]. split; [done|].
    unfold linked_pages. repeat constructor. }
  rewrite lookup_cons. destruct (String.eqb "Contact Us" text_item).
  { right. right. eexists. split; [reflexivity|]. split; [done|].
    unfold linked_pages. repeat constructor. }
  rewrite lookup_cons. destruct (String.eqb "Check for update" text_item).
  { right. left. reflexivity. }
  by left.
Qed.

Lemma menu_ok_step sh ev sh' : menu_ok sh → handle ev sh = Some sh' → menu_ok sh'.
Proof.
  intros (Hitems & Hpages & Hdialog).
  destruct ev as [|text_item|b]; simpl.
  - by intros [= <-].
  - intros [= <-]. unfold top_menu_callback.
    destruct (menu_action_init text_item (set_top_menu_open false sh) Hitems)
      as [->|[->|(url & -> & Hurl & Hin)]]; simpl.
    + done.
    + split_and!; [done|done|]. right. by exists true.
    + destruct (String.eqb_spec url ""); [done|]. simpl.
      split_and!; [done| |done]. apply Forall_app. split; [done|].
      by constructor.
  - destruct (txt_dialog sh) as [d|] eqn:Hd; [|done]. simpl.
    destruct (menu.is_open d && bool_decide (b ∈ buttons d)); [|done].
    destruct Hdialog as [?|[open Hopen]]; [congruence|].
    rewrite ?Hd in Hopen. injection Hopen as ->.
    destruct b; unfold txt_dialog_closer, update_checker, dismiss_txt_dialog;
      rewrite Hd; simpl; intros [= <-]; simpl.
    + split_and!; [done|done|]. right. by exists false.
    + split_and!; [done| |right; by exists false].
      apply Forall_app. split; [done|]. constructor; [|done].
      unfold linked_pages. repeat constructor.
Qed.

Lemma menu_ok_run evs sh sh' : menu_ok sh → run evs sh = Some sh' → menu_ok sh'.
Proof.
  revert sh; induction evs as [|ev evs IH]; intros sh Hok; simpl.
  - by intros [= <-].
  - destruct (handle ev sh) as [sh1|] eqn:Hstep; [|done]. simpl.
    apply IH. by apply (menu_ok_step sh ev sh1).
Qed.

(** X21: [top_menu_callback] never raises, always dismisses the menu
    and leaves the table alone. A key that is not in the table has no
    other effect. An entry whose action is update opens the update dialog
    even when it has no url, the action being assigned before the lookup
    of the url fails; an entry whose action is web and that has no url
    does nothing. No call both opens a page and changes the dialog. *)
Theorem top_menu_callback_cases text_item sh :
  top_menu_open (top_menu_callback text_item sh) = false
  ∧ top_menu_items (top_menu_callback text_item sh) = top_menu_items sh
  ∧ (Py.lookup text_item (top_menu_items sh) = None →
     top_menu_callback text_item sh = set_top_menu_open false sh)
  ∧ (∀ item,
       Py.lookup text_item (top_menu_items sh) = Some item →
       Py.lookup "action" item = Some "update" →
       txt_dialog (top_menu_callback text_item sh) = Some (update_dialog true)
       ∧ browser (top_menu_callback text_item sh) = browser sh)
  ∧ (∀ item,
       Py.lookup text_item (top_menu_items sh) = Some item →
       Py.lookup "action" item = Some "web" →
       Py.lookup "url" item = None →
       top_menu_callback text_item sh = set_top_menu_open false sh)
  ∧ (browser (top_menu_callback text_item sh) = browser sh
     ∨ txt_dialog (top_menu_callback text_item sh) = txt_dialog sh).
Proof.
  unfold top_menu_callback, menu_action. simpl. split_and!.
  - destruct (Py.lookup text_item (top_menu_items sh)) as [item|]; [|done].
    destruct (Py.lookup "action" item) as [action|]; [|done].
    destruct (Py.lookup "url" item) as [url|];
      destruct (String.eqb action "web" && _); try done;
      by destruct (String.eqb action "update").
  - destruct (Py.lookup text_item (top_menu_items sh)) as [item|]; [|done].
    destruct (Py.lookup "action" item) as [action|]; [|done].
    destruct (Py.lookup "url" item) as [url|];
      destruct (String.eqb action "web" && _); try done;
      by destruct (String.eqb action "update").
  - by intros ->.
  - intros item -> ->. by destruct (Py.lookup "url" item) as [url|].
  - by intros item -> -> ->.
  - destruct (Py.lookup text_item (top_menu_items sh)) as [item|]; [|by left].
    destruct (Py.lookup "action" item) as [action|]; [|by left].
    destruct (Py.lookup "url" item) as [url|];
      destruct (String.eqb action "web" && _); try (by right);
      destruct (String.eqb action "update"); by left.
Qed.

(** X22: whatever the user does with the menu and the dialog, starting
    from the state after start-up, the browser is only ever opened on one of
    the four pages the program links to, and the only dialog there is is
    the update dialog. While that dialog is open each of its buttons can be
    pressed without an exception and closes it; only Releases opens a page,
    the releases page. *)
Theorem menu_run_invariant evs sh :
  run evs init = Some sh →
  Forall (λ url, url ∈ linked_pages) (browser sh)
  ∧ (txt_dialog sh = None ∨ ∃ open, txt_dialog sh = Some (update_dialog open))
  ∧ (txt_dialog sh = Some (update_dialog true) →
     ∀ b, ∃ sh',
       handle (Press b) sh = Some sh'
       ∧ txt_dialog sh' = Some (update_dialog false)
       ∧ browser sh'
         = browser sh
           ++ match b with
              | Cancel => []
              | Releases =>
                  ["https://github.com/daslearning-org/Ollama-AI-Chat-App/releases"]
              end).
Proof.
  intros Hrun.
  assert (menu_ok init) as Hinit.
  { split_and!; [done|constructor|by left]. }
  destruct (menu_ok_run evs init sh Hinit Hrun) as (_ & Hpages & Hdialog).
  split_and!; [done|done|].
  intros Hd b. simpl. rewrite Hd. simpl.
  destruct b; unfold txt_dialog_closer, update_checker, dismiss_txt_dialog;
    rewrite Hd; simpl; eexists; (split; [done|]); simpl;
    by rewrite ?app_nil_r.
Qed.

(** The update item chosen from the menu. *)
Lemma menu_run_invariant_witness :
  ∃ sh',
    handle (Press Releases)
      (top_menu_callback "Check for update" (menu_bar_callback init))
    = Some sh'
    ∧ txt_dialog sh' = Some (update_dialog false)
    ∧ browser sh'
      = ["https://github.com/daslearning-org/Ollama-AI-Chat-App/releases"].
Proof.
  exact (proj2 (proj2 (menu_run_invariant
                         [MenuBar; TopMenu "Check for update"]
                         (top_menu_callback "Check for update"
                            (menu_bar_callback init))
                         eq_refl))
           eq_refl Releases).
Defined.

End Menu.
